(** * dynamic-shuffler backend: chat gateway, completion client, trace recorder

    A shallow embedding of the three Python modules of the backend
    ([main.py], [openai_service.py], [arize_service.py]) and the proofs of
    the properties their specification states.

    The program is a single-hop proxy with a logging side effect, so the
    embedding is an exception-and-state monad over an event log: every call
    that leaves the process (the random source behind [uuid.uuid4], the
    completion provider, the tracing SDK, [print]) appends an event, and the
    answers of the outside world are read from a [World] of oracles.
    Requests share no mutable state, so each is followed on its own from
    the history it starts in. *)

From Stdlib Require Import Bool Arith NArith ZArith List String Ascii Lia.
Import ListNotations.
Local Open Scope string_scope.
Local Open Scope list_scope.
Set Warnings "-register-all".

(** Python's [+] on [str] *)
Infix "+++" := String.append (right associativity, at level 60).

(* ================================================================== *)
(** ** Python values *)

(** Values that cross the process boundary as JSON or as attribute-bearing
    objects: a request body after [json.loads], the provider's response
    object ([OpenAIObject] is a [dict] whose keys are also attributes).
    A dictionary keeps its insertion order, hence an association list. *)
Inductive pyval : Type :=
| VNone
| VBool (b : bool)
| VInt (n : Z)
| VStr (s : string)
| VList (items : list pyval)
| VDict (fields : list (string * pyval)).

(** [Dict[str, str]], the element type of the [messages] list. *)
Definition strdict : Type := list (string * string).

(** [d[k]] or [d.get(k)]; the keys of a Python dictionary are distinct, so
    the first entry found is the entry *)
Fixpoint lookup {A : Type} (k : string) (d : list (string * A)) : option A :=
  match d with
  | [] => None
  | (k', v) :: d' => if String.eqb k k' then Some v else lookup k d'
  end.

(** [type(v).__name__] *)
Definition type_name (v : pyval) : string :=
  match v with
  | VNone => "NoneType"
  | VBool _ => "bool"
  | VInt _ => "int"
  | VStr _ => "str"
  | VList _ => "list"
  | VDict _ => "dict"
  end.

(* ================================================================== *)
(** ** Exceptions and results *)

(** A raised Python exception: its class name, whether the class derives
    from [Exception] (what [except Exception] tests; [KeyboardInterrupt],
    [SystemExit] and task cancellation do not), and [str(e)]. *)
Record exn : Type := mkExn {
  exn_class : string;
  exn_is_Exception : bool;
  exn_str : string
}.

Definition Exc (cls msg : string) : exn := mkExn cls true msg.

Inductive res (A : Type) : Type :=
| Ret (a : A)
| Raise (e : exn).
Arguments Ret {A} a.
Arguments Raise {A} e.

(** [v.name] *)
Definition getattr (v : pyval) (name : string) : res pyval :=
  match v with
  | VDict fields =>
      match lookup name fields with
      | Some x => Ret x
      | None => Raise (Exc "AttributeError" name)
      end
  | _ => Raise (Exc "AttributeError"
           ("'" +++ type_name v +++ "' object has no attribute '" +++ name +++ "'"))
  end.

(** [v[0]] *)
Definition getitem0 (v : pyval) : res pyval :=
  match v with
  | VList (x :: _) => Ret x
  | VList [] => Raise (Exc "IndexError" "list index out of range")
  | VStr (String c _) => Ret (VStr (String c EmptyString))
  | VStr EmptyString => Raise (Exc "IndexError" "string index out of range")
  | VDict _ => Raise (Exc "KeyError" "0")
  | _ => Raise (Exc "TypeError"
           ("'" +++ type_name v +++ "' object is not subscriptable"))
  end.

(* ================================================================== *)
(** ** Events, states and the outside world *)

(** The keyword arguments of one call of the SDK's [trace]. *)
Record span : Type := mkSpan {
  span_name : string;
  span_inputs_prompt : string;
  span_inputs_model : option string;
  span_outputs_response : pyval;
  span_id : string
}.

Inductive event : Type :=
| EvUrandom (bytes16 : N)
| EvProviderCall (model : option string) (messages : list strdict)
| EvTrace (s : span)
| EvPrint (line : string).

(** The only thing a request can change is the history of what happened. *)
Definition history : Type := list event.

(** What the environment answers.  Each oracle sees the history so far, so
    two calls with the same arguments may be answered differently. *)
Record World : Type := mkWorld {
  (** [os.urandom(16)] read as a big-endian integer *)
  urandom16 : history -> N;
  (** [openai.ChatCompletion.acreate(model=..., messages=...)] *)
  acreate : history -> option string -> list strdict -> res pyval;
  (** [json.dumps(prompt, indent=2)] *)
  json_dumps : list strdict -> res string;
  (** [arize.phoenix.trace.trace] when the import succeeded at start-up,
      [None] when it raised [ImportError] *)
  sdk_trace : option (history -> span -> res unit);
  (** how the validation library treats a scalar that is not a string where
      a [str] field is declared (it may coerce a number or refuse it) *)
  coerce_str : pyval -> option string;
  (** how the validation library treats a list where an object is declared
      (it may read a list of key and value pairs as an object, or refuse) *)
  coerce_dict : list pyval -> option (list (string * pyval));
  (** whether the renderer of JSON responses can encode a text as UTF-8 (a
      text holding a lone surrogate it cannot) *)
  encodable : string -> bool;
  (** [str(e)] of the validation error for a value refused as [str] *)
  validation_error_str : pyval -> string;
  (** the [detail] of the framework's answer to a body it refuses *)
  validation_detail : pyval -> pyval
}.

(* ================================================================== *)
(** ** The monad of the handlers *)

Definition M (A : Type) : Type := history -> res A * history.

Definition ret {A} (a : A) : M A := fun h => (Ret a, h).

Definition bind {A B} (m : M A) (k : A -> M B) : M B :=
  fun h => match m h with
           | (Ret a, h') => k a h'
           | (Raise e, h') => (Raise e, h')
           end.

Definition raise {A} (e : exn) : M A := fun h => (Raise e, h).

(** [try: body / except Exception as e: handler e] *)
Definition try_except {A} (body : M A) (handler : exn -> M A) : M A :=
  fun h => match body h with
           | (Ret a, h') => (Ret a, h')
           | (Raise e, h') =>
               if exn_is_Exception e then handler e h' else (Raise e, h')
           end.

(** a pure computation that may raise *)
Definition lift {A} (r : res A) : M A := fun h => (r, h).

Definition emit (ev : event) : M unit := fun h => (Ret tt, h ++ [ev]).

Definition print (line : string) : M unit := emit (EvPrint line).

Notation "x <- m ;; k" := (bind m (fun x => k))
  (at level 61, m at next level, right associativity).
Notation "m ;;; k" := (bind m (fun _ => k))
  (at level 61, right associativity).

(** the same for a computation without effects *)
Definition rbind {A B} (r : res A) (k : A -> res B) : res B :=
  match r with
  | Ret a => k a
  | Raise e => Raise e
  end.

(* ================================================================== *)
(** ** The standard library's [uuid] module *)

Module uuid.

(** [UUID(bytes=b, version=4).int]: the sixteen random bytes with the
    variant and version bits overwritten. *)
Definition UUID_v4 (bytes16 : N) : N :=
  let int := (bytes16 mod 2 ^ 128)%N in
  let int := N.ldiff int (N.shiftl 0xc000 48) in
  let int := N.lor int (N.shiftl 0x8000 48) in
  let int := N.ldiff int (N.shiftl 0xf000 64) in
  N.lor int (N.shiftl 4 76).

Definition hex_digit (d : N) : ascii :=
  nth (N.to_nat d) (list_ascii_of_string "0123456789abcdef") "0"%char.

(** the [k] low hexadecimal digits of [n], least significant first *)
Fixpoint hex_rev (k : nat) (n : N) : list ascii :=
  match k with
  | O => []
  | S k' => hex_digit (n mod 16)%N :: hex_rev k' (n / 16)%N
  end.

(** the value of a hexadecimal digit, [16] for any other character *)
Definition hex_val (c : ascii) : N :=
  let fix index (l : list ascii) (i : N) : N :=
    match l with
    | [] => i
    | c' :: l' => if Ascii.eqb c c' then i else index l' (N.succ i)
    end
  in index (list_ascii_of_string "0123456789abcdef") 0%N.

(** ['%032x' % int] for an [int] below [2 ^ 128] *)
Definition hex032 (int : N) : list ascii := rev (hex_rev 32 int).

(** [UUID.__str__]: the digits cut 8-4-4-4-12 and joined with dashes *)
Definition UUID_str (int : N) : string :=
  let hex := hex032 int in
  let dash := "-"%char in
  string_of_list_ascii
    (firstn 8 hex ++ dash ::
     firstn 4 (skipn 8 hex) ++ dash ::
     firstn 4 (skipn 12 hex) ++ dash ::
     firstn 4 (skipn 16 hex) ++ dash ::
     skipn 20 hex).

End uuid.

(** [uuid.uuid4()]: one read of the random source *)
Definition uuid4 (W : World) : M N :=
  fun h => let b := urandom16 W h in
           (Ret (uuid.UUID_v4 b), h ++ [EvUrandom b]).

(* ================================================================== *)
(** ** arize_service.py *)

(** how an f-string renders a value that is a [str] or [None] *)
Definition fmt (v : option string) : string :=
  match v with
  | Some s => s
  | None => "None"
  end.

(** the stand-in defined when the import of the SDK fails *)
Definition dummy_trace (s : span) : M unit :=
  print "Arize Phoenix tracing disabled.".

(** the module-level name [trace]: the SDK's function or the stand-in *)
Definition trace (W : World) (s : span) : M unit :=
  match sdk_trace W with
  | Some sdk => fun h => (sdk h s, h ++ [EvTrace s])
  | None => dummy_trace s
  end.

Definition trace_llm_call (W : World) (trace_id : string)
    (model : option string) (prompt : list strdict) (response : pyval)
    (response_obj : pyval) : M unit :=
  try_except
    (prompt_str <- lift (json_dumps W prompt) ;;
     trace W {| span_name := "LLM Call - " +++ fmt model;
                span_inputs_prompt := prompt_str;
                span_inputs_model := model;
                span_outputs_response := response;
                span_id := trace_id |} ;;;
     print ("Traced LLM call with ID: " +++ trace_id))
    (fun e => print ("Error tracing LLM call: " +++ exn_str e)).

(* ================================================================== *)
(** ** openai_service.py *)

Definition call_acreate (W : World) (model : option string)
    (messages : list strdict) : M pyval :=
  fun h => (acreate W h model messages, h ++ [EvProviderCall model messages]).

(** [response.choices[0].message.content] *)
Definition first_choice_content (response : pyval) : res pyval :=
  rbind (getattr response "choices") (fun choices =>
  rbind (getitem0 choices) (fun choice =>
  rbind (getattr choice "message") (fun message =>
  getattr message "content"))).

(** The default of the [model] parameter plays no part here: the only
    caller gives the model. *)
Definition get_chat_completion (W : World) (messages : list strdict)
    (model : option string) : M (pyval * string) :=
  u <- uuid4 W ;;
  let trace_id := uuid.UUID_str u in
  try_except
    (response <- call_acreate W model messages ;;
     content <- lift (first_choice_content response) ;;
     trace_llm_call W trace_id model messages content response ;;;
     ret (content, trace_id))
    (fun e =>
       print ("Error calling OpenAI API: " +++ exn_str e) ;;;
       raise e).

(* ================================================================== *)
(** ** main.py: the models *)

Record Message : Type := mkMessage {
  role : string;
  content : string
}.

Record ChatRequest : Type := mkChatRequest {
  messages : list Message;
  model : option string
}.

Record ChatResponse : Type := mkChatResponse {
  message : Message;
  trace_id : string
}.

(** the default of [ChatRequest.model] *)
Definition default_model : string := "gpt-3.5-turbo".

(** validation of a value against a field declared [str] *)
Definition validate_str (W : World) (v : pyval) : option string :=
  match v with
  | VStr s => Some s
  | VNone => None
  | VList _ => None
  | VDict _ => None
  | VBool _ => coerce_str W v
  | VInt _ => coerce_str W v
  end.

(** the entries of a value given where a model is declared: those of an
    object; for a list, what the library makes of it; nothing otherwise *)
Definition as_object (W : World) (v : pyval)
    : option (list (string * pyval)) :=
  match v with
  | VDict fields => Some fields
  | VList items => coerce_dict W items
  | _ => None
  end.

(** validation against [Message]: an object with a [role] and a [content],
    both [str]; other keys are ignored *)
Definition validate_Message (W : World) (v : pyval) : option Message :=
  match as_object W v with
  | Some fields =>
      match lookup "role" fields, lookup "content" fields with
      | Some r, Some c =>
          match validate_str W r, validate_str W c with
          | Some r', Some c' => Some (mkMessage r' c')
          | _, _ => None
          end
      | _, _ => None
      end
  | None => None
  end.

(** validation against [List[Message]] *)
Fixpoint validate_Messages (W : World) (items : list pyval)
    : option (list Message) :=
  match items with
  | [] => Some []
  | v :: items' =>
      match validate_Message W v, validate_Messages W items' with
      | Some m, Some ms => Some (m :: ms)
      | _, _ => None
      end
  end.

(** validation against [Optional[str] = "gpt-3.5-turbo"]: the default
    stands in for a missing key only *)
Definition validate_model (W : World) (field : option pyval)
    : option (option string) :=
  match field with
  | None => Some (Some default_model)
  | Some VNone => Some None
  | Some v =>
      match validate_str W v with
      | Some s => Some (Some s)
      | None => None
      end
  end.

(** validation of a request body against [ChatRequest] *)
Definition validate_ChatRequest (W : World) (body : pyval)
    : option ChatRequest :=
  match as_object W body with
  | Some fields =>
      match lookup "messages" fields with
      | Some (VList items) =>
          match validate_Messages W items,
                validate_model W (lookup "model" fields) with
          | Some ms, Some m => Some (mkChatRequest ms m)
          | _, _ => None
          end
      | _ => None
      end
  | None => None
  end.

(** [Message(role=r, content=v)] built inside the program *)
Definition new_Message (W : World) (r : string) (v : pyval) : res Message :=
  match validate_str W v with
  | Some s => Ret (mkMessage r s)
  | None => Raise (Exc "ValidationError" (validation_error_str W v))
  end.

(* ================================================================== *)
(** ** main.py: the handlers *)

(** How a route handler ends: it returns, it raises [HTTPException], or
    something that is not an [Exception] passes through it. *)
Inductive outcome (A : Type) : Type :=
| Returned (a : A)
| HTTPException (status_code : N) (detail : string)
| Uncaught (e : exn).
Arguments Returned {A} a.
Arguments HTTPException {A} status_code detail.
Arguments Uncaught {A} e.

Definition H (A : Type) : Type := history -> outcome A * history.

(** [try: body / except Exception as e: raise HTTPException(...)] *)
Definition try_except_http {A} (body : M A) (handler : exn -> N * string)
    : H A :=
  fun h => match body h with
           | (Ret a, h') => (Returned a, h')
           | (Raise e, h') =>
               if exn_is_Exception e
               then (HTTPException (fst (handler e)) (snd (handler e)), h')
               else (Uncaught e, h')
           end.

Definition message_dict (msg : Message) : strdict :=
  [("role", role msg); ("content", content msg)].

Definition chat (W : World) (request : ChatRequest) : H ChatResponse :=
  try_except_http
    (let messages := map message_dict (messages request) in
     rt <- get_chat_completion W messages (model request) ;;
     let '(response, trace_id) := rt in
     msg <- lift (new_Message W "assistant" response) ;;
     ret (mkChatResponse msg trace_id))
    (fun e => (500%N, exn_str e)).

Definition health_check : H strdict :=
  fun h => (Returned [("status", "healthy")], h).

(* ================================================================== *)
(** ** The routes, as the framework serves them *)

(** [Response] is an answer with a JSON body, [PlainText] one with a text
    body, [Unhandled] an exception no handler of the application stopped *)
Inductive http_result : Type :=
| Response (status : N) (body : pyval)
| Unhandled (e : exn)
| PlainText (status : N) (text : string).

Definition json_of_Message (m : Message) : pyval :=
  VDict [("role", VStr (role m)); ("content", VStr (content m))].

Definition json_of_ChatResponse (r : ChatResponse) : pyval :=
  VDict [("message", json_of_Message (message r));
         ("trace_id", VStr (trace_id r))].

Definition json_of_strdict (d : strdict) : pyval :=
  VDict (map (fun kv => (fst kv, VStr (snd kv))) d).

(** The framework renders what a handler returns after the handler, and so
    its [try], is left: a value it cannot encode ends in the server's own
    plain 500.  The detail of an [HTTPException] is the text of an exception
    the program printed or the validation library's message. *)
Definition respond {A} (renders : A -> bool) (encode : A -> pyval)
    (o : outcome A) : http_result :=
  match o with
  | Returned a =>
      if renders a then Response 200 (encode a)
      else PlainText 500 "Internal Server Error"
  | HTTPException status_code detail =>
      Response status_code (VDict [("detail", VStr detail)])
  | Uncaught e => Unhandled e
  end.

(** Of the texts of a [ChatResponse] the role is a literal and the trace
    identifier is made of hexadecimal digits and dashes: only the content,
    which comes from the provider, can be a text that cannot be encoded. *)
Definition renders_ChatResponse (W : World) (r : ChatResponse) : bool :=
  encodable W (content (message r)).

(** [POST /chat] with a JSON body *)
Definition post_chat (W : World) (body : pyval)
    : history -> http_result * history :=
  fun h =>
    match validate_ChatRequest W body with
    | None => (Response 422 (VDict [("detail", validation_detail W body)]), h)
    | Some request =>
        let '(o, h') := chat W request h in
        (respond (renders_ChatResponse W) json_of_ChatResponse o, h')
    end.

(** [GET /health]; its answer is made of literals *)
Definition get_health : history -> http_result * history :=
  fun h => let '(o, h') := health_check h in
           (respond (fun _ => true) json_of_strdict o, h').

(** the provider calls recorded in a history, oldest first *)
Fixpoint provider_calls (h : history)
    : list (option string * list strdict) :=
  match h with
  | [] => []
  | EvProviderCall m msgs :: h' => (m, msgs) :: provider_calls h'
  | _ :: h' => provider_calls h'
  end.

(** the spans handed to the SDK in a history, oldest first *)
Fixpoint spans (h : history) : list span :=
  match h with
  | [] => []
  | EvTrace s :: h' => s :: spans h'
  | _ :: h' => spans h'
  end.

(* ================================================================== *)
(** ** Concrete worlds *)

Module Stub.

(** the double quote and the line feed *)
Definition dq : string := String (ascii_of_nat 34) EmptyString.

Definition nl : string := String (ascii_of_nat 10) EmptyString.

Definition dumps_pair (kv : string * string) : string :=
  "    " +++ dq +++ fst kv +++ dq +++ ": " +++ dq +++ snd kv +++ dq.

Fixpoint join (sep : string) (l : list string) : string :=
  match l with
  | [] => EmptyString
  | [x] => x
  | x :: l' => x +++ sep +++ join sep l'
  end.

Definition dumps_dict (d : strdict) : string :=
  match d with
  | [] => "  {}"
  | _ => "  {" +++ nl +++ join ("," +++ nl) (map dumps_pair d)
         +++ nl +++ "  }"
  end.

(** [json.dumps(prompt, indent=2)] on messages made of printable ASCII
    without quotes or backslashes, where nothing needs escaping *)
Definition dumps (prompt : list strdict) : res string :=
  match prompt with
  | [] => Ret "[]"
  | _ => Ret ("[" +++ nl +++ join ("," +++ nl) (map dumps_dict prompt)
              +++ nl +++ "]")
  end.

(** a provider response carrying one completion *)
Definition completion (text : pyval) : pyval :=
  VDict [("id", VStr "chatcmpl-1");
         ("choices",
          VList [VDict [("index", VInt 0);
                        ("message", VDict [("role", VStr "assistant");
                                           ("content", text)]);
                        ("finish_reason", VStr "stop")]])].

(** whether a text, its characters written in UTF-8 and a lone surrogate
    in the three bytes that form would give it, holds a lone surrogate: the
    byte [0xED] followed by one of [0xA0] to [0xBF] *)
Fixpoint has_surrogate (s : string) : bool :=
  match s with
  | String c (String d _ as rest) =>
      (Nat.eqb (nat_of_ascii c) 237 &&
       Nat.leb 160 (nat_of_ascii d) && Nat.leb (nat_of_ascii d) 191)
      || has_surrogate rest
  | _ => false
  end.

(** a world whose provider answers [answer], whose random source counts
    the events so far, and whose SDK is [sdk] *)
Definition world (answer : res pyval)
    (sdk : option (history -> span -> res unit)) : World :=
  {| urandom16 := fun h => N.of_nat (List.length h);
     acreate := fun _ _ _ => answer;
     json_dumps := dumps;
     sdk_trace := sdk;
     coerce_str := fun _ => None;
     coerce_dict := fun _ => None;
     encodable := fun s => negb (has_surrogate s);
     validation_error_str := fun v =>
       "1 validation error for Message: content of type " +++ type_name v;
     validation_detail := fun _ => VList [] |}.

Definition sdk_ok : option (history -> span -> res unit) :=
  Some (fun _ _ => Ret tt).

Definition sdk_down : option (history -> span -> res unit) :=
  Some (fun _ _ => Raise (Exc "ConnectionError" "tracing backend unreachable")).

Definition hello : World := world (Ret (completion (VStr "Hello!"))) sdk_ok.

Definition hi_body : pyval :=
  VDict [("messages",
          VList [VDict [("role", VStr "user"); ("content", VStr "Hi")]])].

End Stub.

(* ================================================================== *)
(** ** What a run looks like *)

(** a result that [except Exception] does not stop *)
Definition escapes {A} (r : res A) : bool :=
  match r with
  | Ret _ => false
  | Raise e => negb (exn_is_Exception e)
  end.

(** serialisation and the SDK raise nothing outside [Exception] *)
Definition tracing_raises_Exceptions (W : World) : Prop :=
  (forall prompt, escapes (json_dumps W prompt) = false) /\
  (forall sdk h s, sdk_trace W = Some sdk -> escapes (sdk h s) = false).

(** the identifier drawn by a call that starts in history [h] *)
Definition drawn_uuid (W : World) (h : history) : N :=
  uuid.UUID_v4 (urandom16 W h).

Definition fresh_trace_id (W : World) (h : history) : string :=
  uuid.UUID_str (drawn_uuid W h).

(** the provider's answer to a call that starts in history [h] *)
Definition provider_answer (W : World) (messages : list strdict)
    (model : option string) (h : history) : res pyval :=
  acreate W (h ++ [EvUrandom (urandom16 W h)]) model messages.

(** the two events every call of [get_chat_completion] begins with *)
Definition call_prefix (W : World) (messages : list strdict)
    (model : option string) (h : history) : history :=
  [EvUrandom (urandom16 W h); EvProviderCall model messages].

Definition the_span (trace_id : string) (model : option string)
    (prompt_str : string) (response : pyval) : span :=
  {| span_name := "LLM Call - " +++ fmt model;
     span_inputs_prompt := prompt_str;
     span_inputs_model := model;
     span_outputs_response := response;
     span_id := trace_id |}.

(** what [trace_llm_call] appends to the history (a closed form of its run,
    see [trace_llm_call_run]) *)
Definition trace_events (W : World) (trace_id : string)
    (model : option string) (prompt : list strdict) (response : pyval)
    (h : history) : history :=
  match json_dumps W prompt with
  | Raise e =>
      if exn_is_Exception e
      then [EvPrint ("Error tracing LLM call: " +++ exn_str e)]
      else []
  | Ret prompt_str =>
      let s := the_span trace_id model prompt_str response in
      match sdk_trace W with
      | None => [EvPrint "Arize Phoenix tracing disabled.";
                 EvPrint ("Traced LLM call with ID: " +++ trace_id)]
      | Some sdk =>
          match sdk h s with
          | Ret _ => [EvTrace s;
                      EvPrint ("Traced LLM call with ID: " +++ trace_id)]
          | Raise e =>
              if exn_is_Exception e
              then [EvTrace s;
                    EvPrint ("Error tracing LLM call: " +++ exn_str e)]
              else [EvTrace s]
          end
      end
  end.

(** what [trace_llm_call] hands back *)
Definition trace_result (W : World) (trace_id : string)
    (model : option string) (prompt : list strdict) (response : pyval)
    (h : history) : res unit :=
  match json_dumps W prompt with
  | Raise e => if exn_is_Exception e then Ret tt else Raise e
  | Ret prompt_str =>
      match sdk_trace W with
      | None => Ret tt
      | Some sdk =>
          match sdk h (the_span trace_id model prompt_str response) with
          | Ret _ => Ret tt
          | Raise e => if exn_is_Exception e then Ret tt else Raise e
          end
      end
  end.

(** the history and the result of [get_chat_completion], case by case
    (closed forms of its run, see [get_chat_completion_run]) *)
Definition completion_events (W : World) (messages : list strdict)
    (model : option string) (h : history) : history :=
  call_prefix W messages model h ++
  match provider_answer W messages model h with
  | Raise e =>
      if exn_is_Exception e
      then [EvPrint ("Error calling OpenAI API: " +++ exn_str e)] else []
  | Ret response =>
      match first_choice_content response with
      | Raise e =>
          if exn_is_Exception e
          then [EvPrint ("Error calling OpenAI API: " +++ exn_str e)] else []
      | Ret content =>
          let h1 := h ++ call_prefix W messages model h in
          trace_events W (fresh_trace_id W h) model messages content h1 ++
          match trace_result W (fresh_trace_id W h) model messages content h1
          with
          | Ret _ => []
          | Raise e =>
              if exn_is_Exception e
              then [EvPrint ("Error calling OpenAI API: " +++ exn_str e)]
              else []
          end
      end
  end.

Definition completion_result (W : World) (messages : list strdict)
    (model : option string) (h : history) : res (pyval * string) :=
  match provider_answer W messages model h with
  | Raise e => Raise e
  | Ret response =>
      match first_choice_content response with
      | Raise e => Raise e
      | Ret content =>
          let h1 := h ++ call_prefix W messages model h in
          match trace_result W (fresh_trace_id W h) model messages content h1
          with
          | Ret _ => Ret (content, fresh_trace_id W h)
          | Raise e => Raise e
          end
      end
  end.


(** how [chat] ends, read off the result of the completion client (a
    closed form of its run, see [chat_run]) *)
Definition chat_outcome (W : World) (request : ChatRequest) (h : history)
    : outcome ChatResponse :=
  match completion_result W (map message_dict (messages request))
          (model request) h with
  | Ret (response, trace_id) =>
      match validate_str W response with
      | Some s => Returned (mkChatResponse (mkMessage "assistant" s) trace_id)
      | None => HTTPException 500 (validation_error_str W response)
      end
  | Raise e =>
      if exn_is_Exception e then HTTPException 500 (exn_str e)
      else Uncaught e
  end.

(** the body of a successful answer of [POST /chat] *)
Definition chat_reply (text trace_id : string) : pyval :=
  VDict [("message", VDict [("role", VStr "assistant");
                            ("content", VStr text)]);
         ("trace_id", VStr trace_id)].

(** the body of an error answer *)
Definition error_body (detail : string) : pyval :=
  VDict [("detail", VStr detail)].

(** a request body that carries [msgs] and, when given, a [model] entry *)
Definition chat_body (msgs : list Message) (model_entry : option pyval)
    : pyval :=
  VDict (("messages", VList (map json_of_Message msgs)) ::
         match model_entry with
         | Some v => [("model", v)]
         | None => []
         end).

(** the gateway answered with a 4xx and the provider was not called *)
Definition rejected_before_provider (W : World) (body : pyval) (h : history)
    : Prop :=
  exists status detail,
    fst (post_chat W body h) = Response status detail /\
    (400 <= status < 500)%N /\
    provider_calls (snd (post_chat W body h)) = provider_calls h.

(** the result of the completion client as the provider and the random
    source alone determine it *)
Definition provider_only_result (W : World) (messages : list strdict)
    (model : option string) (h : history) : res (pyval * string) :=
  match provider_answer W messages model h with
  | Raise e => Raise e
  | Ret response =>
      match first_choice_content response with
      | Raise e => Raise e
      | Ret content => Ret (content, fresh_trace_id W h)
      end
  end.

(** the same world with another serialiser and another tracing SDK *)
Definition with_tracing (W : World) (dumps : list strdict -> res string)
    (sdk : option (history -> span -> res unit)) : World :=
  {| urandom16 := urandom16 W;
     acreate := acreate W;
     json_dumps := dumps;
     sdk_trace := sdk;
     coerce_str := coerce_str W;
     coerce_dict := coerce_dict W;
     encodable := encodable W;
     validation_error_str := validation_error_str W;
     validation_detail := validation_detail W |}.


(** the provider raises nothing outside [Exception] *)
Definition provider_raises_Exceptions (W : World) : Prop :=
  forall h model messages, escapes (acreate W h model messages) = false.

(** the same world with another provider *)
Definition with_provider (W : World)
    (provider : history -> option string -> list strdict -> res pyval)
    : World :=
  {| urandom16 := urandom16 W;
     acreate := provider;
     json_dumps := json_dumps W;
     sdk_trace := sdk_trace W;
     coerce_str := coerce_str W;
     coerce_dict := coerce_dict W;
     encodable := encodable W;
     validation_error_str := validation_error_str W;
     validation_detail := validation_detail W |}.

(** [json.dumps([{"role": "user", "content": "Hi"}], indent=2)] *)
Definition hi_prompt : string :=
  "[" +++ Stub.nl +++
  "  {" +++ Stub.nl +++
  "    " +++ Stub.dq +++ "role" +++ Stub.dq +++ ": "
         +++ Stub.dq +++ "user" +++ Stub.dq +++ "," +++ Stub.nl +++
  "    " +++ Stub.dq +++ "content" +++ Stub.dq +++ ": "
         +++ Stub.dq +++ "Hi" +++ Stub.dq +++ Stub.nl +++
  "  }" +++ Stub.nl +++
  "]".

(** the six bits version 4 fixes, [None] for a bit it leaves alone *)
Definition version4_bit (i : N) : option bool :=
  if (i =? 63)%N then Some true
  else if (i =? 62)%N then Some false
  else if (i =? 78)%N then Some true
  else if ((76 <=? i) && (i <=? 79))%N then Some false
  else None.

(** a lower-case hexadecimal digit *)
Definition is_hex (c : ascii) : bool := (uuid.hex_val c <? 16)%N.

(** the text made of the one character U+D800, a lone surrogate, written
    in the three bytes the UTF-8 form would give it *)
Definition lone_surrogate : string :=
  String (ascii_of_nat 237)
    (String (ascii_of_nat 160) (String (ascii_of_nat 128) EmptyString)).

(* ================================================================== *)
(** ** The standard library's [json] module, for conversations *)

(** [json.dumps(prompt, indent=2)] for a list of dictionaries from text to
    text, and a reader for what it writes.  On ASCII texts this is
    [json.dumps]; a byte above [0x7F] is written as the character of that
    code, which is [json.dumps] for a text whose characters are below U+0100
    kept one to a byte.  The writers take what follows as their last
    argument. *)
Module Json.

Definition quote : ascii := ascii_of_nat 34.
Definition backslash : ascii := ascii_of_nat 92.
Definition nl : string := String (ascii_of_nat 10) EmptyString.

(** one character as [py_encode_basestring_ascii] writes it: the quote and
    the backslash behind a backslash, the five short escapes, a printable
    ASCII character as it is, anything else as [\u00xx] *)
Definition write_char (c : ascii) (k : string) : string :=
  let n := nat_of_ascii c in
  let esc (e : ascii) := String backslash (String e k) in
  if Nat.eqb n 34 then esc quote
  else if Nat.eqb n 92 then esc backslash
  else if Nat.eqb n 8 then esc "b"%char
  else if Nat.eqb n 12 then esc "f"%char
  else if Nat.eqb n 10 then esc "n"%char
  else if Nat.eqb n 13 then esc "r"%char
  else if Nat.eqb n 9 then esc "t"%char
  else if (Nat.leb 32 n && Nat.leb n 126)%bool then String c k
  else String backslash
         (String "u"%char
            (String "0"%char
               (String "0"%char
                  (String (uuid.hex_digit (N.of_nat (n / 16)))
                     (String (uuid.hex_digit (N.of_nat (n mod 16))) k))))).

Fixpoint write_chars (s : string) (k : string) : string :=
  match s with
  | EmptyString => k
  | String c s' => write_char c (write_chars s' k)
  end.

Definition write_string (s : string) (k : string) : string :=
  String quote (write_chars s (String quote k)).

Definition write_pair (kv : string * string) (k : string) : string :=
  "    " +++ write_string (fst kv) (": " +++ write_string (snd kv) k).

Fixpoint write_pairs (d : strdict) (k : string) : string :=
  match d with
  | [] => k
  | kv :: d' =>
      match d' with
      | [] => write_pair kv k
      | _ => write_pair kv ("," +++ nl +++ write_pairs d' k)
      end
  end.

Definition write_dict (d : strdict) (k : string) : string :=
  match d with
  | [] => "{}" +++ k
  | _ => "{" +++ nl +++ write_pairs d (nl +++ "  }" +++ k)
  end.

Fixpoint write_items (p : list strdict) (k : string) : string :=
  match p with
  | [] => k
  | d :: p' =>
      match p' with
      | [] => "  " +++ write_dict d k
      | _ => "  " +++ write_dict d ("," +++ nl +++ write_items p' k)
      end
  end.

Definition dumps (p : list strdict) : string :=
  match p with
  | [] => "[]"
  | _ => "[" +++ nl +++ write_items p (nl +++ "]")
  end.

(** [s] without the prefix [p], when it starts with it *)
Fixpoint strip (p s : string) : option string :=
  match p with
  | EmptyString => Some s
  | String a p' =>
      match s with
      | String b s' => if Ascii.eqb a b then strip p' s' else None
      | EmptyString => None
      end
  end.

Definition push (c : ascii) (r : option (string * string))
    : option (string * string) :=
  match r with
  | Some (v, rest) => Some (String c v, rest)
  | None => None
  end.

(** the character a short escape stands for *)
Definition short_escape (e : ascii) : option ascii :=
  let n := nat_of_ascii e in
  if Nat.eqb n 34 then Some quote
  else if Nat.eqb n 92 then Some backslash
  else if Nat.eqb n 98 then Some (ascii_of_nat 8)
  else if Nat.eqb n 102 then Some (ascii_of_nat 12)
  else if Nat.eqb n 110 then Some (ascii_of_nat 10)
  else if Nat.eqb n 114 then Some (ascii_of_nat 13)
  else if Nat.eqb n 116 then Some (ascii_of_nat 9)
  else None.

(** the text up to the closing quote, and what follows the quote *)
Fixpoint read_chars (s : string) : option (string * string) :=
  match s with
  | EmptyString => None
  | String c rest =>
      if Ascii.eqb c quote then Some (EmptyString, rest)
      else if Ascii.eqb c backslash then
        match rest with
        | EmptyString => None
        | String e rest1 =>
            if Ascii.eqb e "u"%char then
              match rest1 with
              | String a (String b (String x (String y rest2))) =>
                  if (Ascii.eqb a "0"%char && Ascii.eqb b "0"%char &&
                      N.ltb (uuid.hex_val x) 16 &&
                      N.ltb (uuid.hex_val y) 16)%bool
                  then push (ascii_of_N (16 * uuid.hex_val x
                                         + uuid.hex_val y))
                            (read_chars rest2)
                  else None
              | _ => None
              end
            else
              match short_escape e with
              | Some c' => push c' (read_chars rest1)
              | None => None
              end
        end
      else push c (read_chars rest)
  end.

Definition read_string (s : string) : option (string * string) :=
  match s with
  | String c rest => if Ascii.eqb c quote then read_chars rest else None
  | EmptyString => None
  end.

Definition read_pair (s : string) : option ((string * string) * string) :=
  match strip "    " s with
  | Some s1 =>
      match read_string s1 with
      | Some (key, s2) =>
          match strip ": " s2 with
          | Some s3 =>
              match read_string s3 with
              | Some (value, s4) => Some ((key, value), s4)
              | None => None
              end
          | None => None
          end
      | None => None
      end
  | None => None
  end.

(** the pairs of an object that is not empty, up to its closing brace *)
Fixpoint read_pairs (fuel : nat) (s : string) : option (strdict * string) :=
  match fuel with
  | O => None
  | S fuel' =>
      match read_pair s with
      | Some (kv, s1) =>
          match strip ("," +++ nl) s1 with
          | Some s2 =>
              match read_pairs fuel' s2 with
              | Some (d, rest) => Some (kv :: d, rest)
              | None => None
              end
          | None =>
              match strip (nl +++ "  }") s1 with
              | Some rest => Some ([kv], rest)
              | None => None
              end
          end
      | None => None
      end
  end.

Definition read_dict (fuel : nat) (s : string) : option (strdict * string) :=
  match strip "{}" s with
  | Some rest => Some ([], rest)
  | None =>
      match strip ("{" +++ nl) s with
      | Some s1 => read_pairs fuel s1
      | None => None
      end
  end.

(** the items of a list that is not empty, up to its closing bracket *)
Fixpoint read_items (fuel : nat) (s : string)
    : option (list strdict * string) :=
  match fuel with
  | O => None
  | S fuel' =>
      match strip "  " s with
      | Some s1 =>
          match read_dict (String.length s) s1 with
          | Some (d, s2) =>
              match strip ("," +++ nl) s2 with
              | Some s3 =>
                  match read_items fuel' s3 with
                  | Some (p, rest) => Some (d :: p, rest)
                  | None => None
                  end
              | None =>
                  match strip (nl +++ "]") s2 with
                  | Some rest => Some ([d], rest)
                  | None => None
                  end
              end
          | None => None
          end
      | None => None
      end
  end.

(** reading back what [dumps] wrote *)
Definition loads (s : string) : option (list strdict) :=
  if String.eqb s "[]" then Some []
  else
    match strip ("[" +++ nl) s with
    | Some s1 =>
        match read_items (String.length s) s1 with
        | Some (p, EmptyString) => Some p
        | _ => None
        end
    | None => None
    end.

End Json.
(* ================================================================== *)
(** ** Proofs *)

(* ================================================================== *)
(** ** Facts about [uuid] *)

Module uuid_facts.
Import uuid.

Lemma lor_lt_pow2 (a b n : N) :
  (a < 2 ^ n)%N -> (b < 2 ^ n)%N -> (N.lor a b < 2 ^ n)%N.
Proof.
  intros Ha Hb.
  destruct (N.eq_dec (N.lor a b) 0) as [E | NE].
  - rewrite E. apply N.neq_0_lt_0, N.pow_nonzero. discriminate.
  - apply N.log2_lt_pow2; [ lia | ].
    rewrite N.log2_lor.
    assert (Hlog : forall c, (c < 2 ^ n)%N -> (0 < n)%N ->
                             (N.log2 c < n)%N).
    { intros c Hc Hn. destruct (N.eq_dec c 0) as [-> | Hc0].
      - exact Hn.
      - apply N.log2_lt_pow2; [ lia | exact Hc ]. }
    assert (Hn : (0 < n)%N).
    { destruct (N.eq_dec n 0) as [-> | ]; [ | lia ].
      simpl in Ha, Hb.
      assert (a = 0%N) by lia. assert (b = 0%N) by lia. subst.
      contradiction NE. reflexivity. }
    apply N.max_lub_lt; apply Hlog; assumption.
Qed.

Lemma ldiff_lt (a b c : N) : (a < c)%N -> (N.ldiff a b < c)%N.
Proof.
  intro Ha. eapply N.le_lt_trans; [ apply N.ldiff_le_l | exact Ha ].
Qed.

(** a version-4 UUID is a 128-bit number *)
Lemma UUID_v4_lt (bytes16 : N) : (UUID_v4 bytes16 < 2 ^ 128)%N.
Proof.
  unfold UUID_v4.
  apply lor_lt_pow2; [ | vm_compute; reflexivity ].
  apply ldiff_lt.
  apply lor_lt_pow2; [ | vm_compute; reflexivity ].
  apply ldiff_lt.
  apply N.mod_lt. discriminate.
Qed.

Lemma hex_val_digit (d : N) : (d < 16)%N -> hex_val (hex_digit d) = d.
Proof.
  intro Hd.
  rewrite <- (N2Nat.id d) at 2.
  assert (Hn : N.to_nat d < 16) by lia.
  unfold hex_digit, hex_val.
  remember (N.to_nat d) as n eqn:En. clear En Hd d.
  do 16 (destruct n as [ | n]; [ reflexivity | ]).
  lia.
Qed.

Lemma hex_rev_length (k : nat) (n : N) : List.length (hex_rev k n) = k.
Proof.
  revert n. induction k as [ | k IH]; intro n; simpl;
    [ reflexivity | rewrite IH; reflexivity ].
Qed.

Lemma hex_rev_inj (k : nat) (n m : N) :
  hex_rev k n = hex_rev k m ->
  (n mod 16 ^ N.of_nat k = m mod 16 ^ N.of_nat k)%N.
Proof.
  revert n m. induction k as [ | k IH]; intros n m E.
  - simpl. rewrite !N.mod_1_r. reflexivity.
  - simpl in E. injection E as Ehd Etl.
    apply (f_equal hex_val) in Ehd.
    rewrite !hex_val_digit in Ehd
      by (apply N.mod_lt; discriminate).
    apply IH in Etl.
    rewrite Nat2N.inj_succ, N.pow_succ_r'.
    rewrite !N.Div0.mod_mul_r. rewrite Ehd, Etl. reflexivity.
Qed.

Lemma hex032_length (n : N) : List.length (hex032 n) = 32.
Proof.
  unfold hex032. rewrite length_rev. apply hex_rev_length.
Qed.

Lemma hex032_inj (n m : N) :
  (n < 2 ^ 128)%N -> (m < 2 ^ 128)%N -> hex032 n = hex032 m -> n = m.
Proof.
  intros Hn Hm E. unfold hex032 in E.
  apply rev_inj, hex_rev_inj in E.
  change (16 ^ N.of_nat 32)%N with (2 ^ 128)%N in E.
  rewrite !N.mod_small in E by assumption. exact E.
Qed.

Lemma app_inj_length {A} (l1 l1' l2 l2' : list A) :
  List.length l1 = List.length l1' ->
  l1 ++ l2 = l1' ++ l2' -> l1 = l1' /\ l2 = l2'.
Proof.
  revert l1'. induction l1 as [ | x l1 IH]; intros [ | y l1'] Hlen E;
    simpl in *; try discriminate.
  - split; [ reflexivity | exact E ].
  - injection E as -> E. injection Hlen as Hlen.
    destruct (IH _ Hlen E) as [-> ->]. split; reflexivity.
Qed.

Lemma group_split {A} (l l' : list A) (d : A) (r r' : list A) :
  List.length l = List.length l' ->
  l ++ d :: r = l' ++ d :: r' -> l = l' /\ r = r'.
Proof.
  intros Hlen E. apply app_inj_length in E; [ | exact Hlen ].
  destruct E as [E1 E2]. injection E2 as E2. split; assumption.
Qed.

(** the five dash-separated groups put the digits back together *)
Lemma groups_rejoin {A} (hex : list A) :
  firstn 8 hex ++ firstn 4 (skipn 8 hex) ++ firstn 4 (skipn 12 hex) ++
  firstn 4 (skipn 16 hex) ++ skipn 20 hex = hex.
Proof.
  change (skipn 12 hex) with (skipn (4 + 8) hex).
  change (skipn 16 hex) with (skipn (4 + (4 + 8)) hex).
  change (skipn 20 hex) with (skipn (4 + (4 + (4 + 8))) hex).
  rewrite <- !skipn_skipn.
  rewrite !firstn_skipn. reflexivity.
Qed.

Lemma UUID_str_length (int : N) : String.length (UUID_str int) = 36.
Proof.
  unfold UUID_str.
  rewrite <- (list_ascii_of_string_of_list_ascii
                (firstn 8 (hex032 int) ++ _)) at 1.
  pose proof (hex032_length int) as Hlen.
  remember (hex032 int) as hex eqn:Ehex. clear Ehex.
  do 33 (destruct hex as [ | ? hex]; try discriminate Hlen).
  reflexivity.
Qed.

(** [str] tells 128-bit UUIDs apart *)
Lemma UUID_str_inj (a b : N) :
  (a < 2 ^ 128)%N -> (b < 2 ^ 128)%N -> UUID_str a = UUID_str b -> a = b.
Proof.
  intros Ha Hb E. apply hex032_inj; try assumption.
  unfold UUID_str in E.
  apply (f_equal list_ascii_of_string) in E.
  rewrite !list_ascii_of_string_of_list_ascii in E.
  pose proof (hex032_length a) as La. pose proof (hex032_length b) as Lb.
  remember (hex032 a) as x eqn:Ex. remember (hex032 b) as y eqn:Ey.
  clear Ex Ey Ha Hb.
  assert (L : forall k n, List.length (firstn k (skipn n x)) =
                          List.length (firstn k (skipn n y)))
    by (intros; rewrite !length_firstn, !length_skipn; lia).
  apply group_split in E as [E1 E]; [ | apply (L 8 0) ].
  apply group_split in E as [E2 E]; [ | apply L ].
  apply group_split in E as [E3 E]; [ | apply L ].
  apply group_split in E as [E4 E]; [ | apply L ].
  rewrite <- (groups_rejoin x), <- (groups_rejoin y).
  rewrite E1, E2, E3, E4.
  rewrite E. reflexivity.
Qed.

End uuid_facts.

(* ================================================================== *)
(** ** Runs of the trace recorder and of the completion client *)

Ltac unfold_monad :=
  unfold try_except, try_except_http, bind, ret, raise, lift, print, emit,
         dummy_trace, trace, call_acreate, uuid4 in *.

Ltac tidy_app := simpl; repeat rewrite <- app_assoc; simpl.

Lemma trace_llm_call_run (W : World) trace_id model prompt response
    response_obj h :
  trace_llm_call W trace_id model prompt response response_obj h =
  (trace_result W trace_id model prompt response h,
   h ++ trace_events W trace_id model prompt response h).
Proof.
  unfold trace_llm_call, trace_result, trace_events, the_span.
  unfold_monad.
  destruct (json_dumps W prompt) as [prompt_str | e].
  - destruct (sdk_trace W) as [sdk | ].
    + destruct (sdk h _) as [[] | e].
      * tidy_app. reflexivity.
      * destruct (exn_is_Exception e); tidy_app; reflexivity.
    + tidy_app. reflexivity.
  - destruct (exn_is_Exception e).
    + reflexivity.
    + rewrite app_nil_r. reflexivity.
Qed.

Lemma trace_result_Ret (W : World) trace_id model prompt response h :
  tracing_raises_Exceptions W ->
  trace_result W trace_id model prompt response h = Ret tt.
Proof.
  intros [Hdumps Hsdk]. unfold trace_result.
  specialize (Hdumps prompt).
  destruct (json_dumps W prompt) as [prompt_str | e]; simpl in Hdumps.
  - destruct (sdk_trace W) as [sdk | ] eqn:E; [ | reflexivity ].
    specialize (Hsdk sdk h (the_span trace_id model prompt_str response)
                     eq_refl).
    destruct (sdk h _) as [[] | e]; simpl in Hsdk; [ reflexivity | ].
    destruct (exn_is_Exception e); [ reflexivity | discriminate ].
  - destruct (exn_is_Exception e); [ reflexivity | discriminate ].
Qed.

Lemma provider_calls_app (h1 h2 : history) :
  provider_calls (h1 ++ h2) = provider_calls h1 ++ provider_calls h2.
Proof.
  induction h1 as [ | ev h1 IH]; simpl; [ reflexivity | ].
  destruct ev; simpl; rewrite IH; reflexivity.
Qed.

Lemma spans_app (h1 h2 : history) :
  spans (h1 ++ h2) = spans h1 ++ spans h2.
Proof.
  induction h1 as [ | ev h1 IH]; simpl; [ reflexivity | ].
  destruct ev; simpl; rewrite IH; reflexivity.
Qed.

Lemma trace_events_no_provider_call (W : World) trace_id model prompt
    response h :
  provider_calls (trace_events W trace_id model prompt response h) = [].
Proof.
  unfold trace_events.
  destruct (json_dumps W prompt) as [s | e].
  - destruct (sdk_trace W) as [sdk | ]; [ | reflexivity ].
    destruct (sdk h _) as [[] | e]; [ reflexivity | ].
    destruct (exn_is_Exception e); reflexivity.
  - destruct (exn_is_Exception e); reflexivity.
Qed.

Lemma get_chat_completion_run (W : World) messages model h :
  get_chat_completion W messages model h =
  (completion_result W messages model h,
   h ++ completion_events W messages model h).
Proof.
  unfold get_chat_completion, completion_result, completion_events,
         provider_answer, call_prefix, fresh_trace_id, drawn_uuid.
  unfold_monad.
  tidy_app.
  destruct (acreate W _ model messages) as [response | e].
  - destruct (first_choice_content response) as [content | e].
    + rewrite trace_llm_call_run. tidy_app.
      destruct (trace_result W _ model messages content _) as [[] | e].
      * rewrite app_nil_r. reflexivity.
      * destruct (exn_is_Exception e); tidy_app;
          [ reflexivity | rewrite app_nil_r; reflexivity ].
    + destruct (exn_is_Exception e); tidy_app; reflexivity.
  - destruct (exn_is_Exception e); tidy_app; reflexivity.
Qed.

Lemma completion_events_provider_calls (W : World) messages model h :
  provider_calls (completion_events W messages model h) = [(model, messages)].
Proof.
  unfold completion_events, call_prefix. simpl.
  destruct (provider_answer W messages model h) as [response | e].
  - destruct (first_choice_content response) as [content | e].
    + rewrite provider_calls_app, trace_events_no_provider_call. simpl.
      destruct (trace_result W _ model messages content _) as [[] | e];
        [ reflexivity | destruct (exn_is_Exception e); reflexivity ].
    + destruct (exn_is_Exception e); reflexivity.
  - destruct (exn_is_Exception e); reflexivity.
Qed.

Lemma completion_result_success (W : World) messages model h response
    content :
  tracing_raises_Exceptions W ->
  provider_answer W messages model h = Ret response ->
  first_choice_content response = Ret content ->
  completion_result W messages model h = Ret (content, fresh_trace_id W h).
Proof.
  intros Htr Hans Hfirst. unfold completion_result.
  rewrite Hans, Hfirst. simpl.
  rewrite trace_result_Ret by exact Htr. reflexivity.
Qed.

(** ** Runs of the gateway *)

Lemma chat_run (W : World) request h :
  chat W request h =
  (chat_outcome W request h,
   h ++ completion_events W (map message_dict (messages request))
          (model request) h).
Proof.
  unfold chat, chat_outcome, try_except_http, bind.
  rewrite get_chat_completion_run.
  destruct (completion_result W _ (model request) h) as [[response tid] | e].
  - unfold lift, new_Message, ret.
    destruct (validate_str W response) as [s | ]; reflexivity.
  - destruct (exn_is_Exception e); reflexivity.
Qed.

Lemma post_chat_valid (W : World) body request h :
  validate_ChatRequest W body = Some request ->
  post_chat W body h =
  (respond (renders_ChatResponse W) json_of_ChatResponse
     (chat_outcome W request h),
   h ++ completion_events W (map message_dict (messages request))
          (model request) h).
Proof.
  intro Hval. unfold post_chat. rewrite Hval, chat_run. reflexivity.
Qed.

Lemma post_chat_invalid (W : World) body h :
  validate_ChatRequest W body = None ->
  post_chat W body h =
  (Response 422 (VDict [("detail", validation_detail W body)]), h).
Proof.
  intro Hval. unfold post_chat. rewrite Hval. reflexivity.
Qed.

(** validation consults the world for its coercion policies only *)
Section ValidationExt.
Variables W W' : World.
Hypothesis same_policy : forall v, coerce_str W' v = coerce_str W v.
Hypothesis same_objects : forall l, coerce_dict W' l = coerce_dict W l.

Lemma validate_str_ext v : validate_str W' v = validate_str W v.
Proof. destruct v; simpl; auto. Qed.

Lemma as_object_ext v : as_object W' v = as_object W v.
Proof. destruct v; simpl; auto. Qed.

Lemma validate_Message_ext v : validate_Message W' v = validate_Message W v.
Proof.
  unfold validate_Message. rewrite as_object_ext.
  destruct (as_object W v) as [fields | ]; [ | reflexivity ].
  destruct (lookup "role" fields) as [r | ]; [ | reflexivity ].
  destruct (lookup "content" fields) as [c | ]; [ | reflexivity ].
  rewrite !validate_str_ext. reflexivity.
Qed.

Lemma validate_Messages_ext items :
  validate_Messages W' items = validate_Messages W items.
Proof.
  induction items as [ | v items IH]; simpl; [ reflexivity | ].
  rewrite validate_Message_ext, IH. reflexivity.
Qed.

Lemma validate_model_ext field :
  validate_model W' field = validate_model W field.
Proof.
  destruct field as [v | ]; [ | reflexivity ].
  destruct v; simpl; try reflexivity; rewrite same_policy; reflexivity.
Qed.

Lemma validate_ChatRequest_ext body :
  validate_ChatRequest W' body = validate_ChatRequest W body.
Proof.
  unfold validate_ChatRequest. rewrite as_object_ext.
  destruct (as_object W body) as [fields | ]; [ | reflexivity ].
  destruct (lookup "messages" fields) as [v | ]; [ | reflexivity ].
  destruct v; try reflexivity.
  rewrite validate_Messages_ext, validate_model_ext. reflexivity.
Qed.
End ValidationExt.

Lemma validate_Message_json (W : World) (m : Message) :
  validate_Message W (json_of_Message m) = Some m.
Proof.
  destruct m as [r c]. reflexivity.
Qed.

(** validation keeps well-typed messages as they are, in their order *)
Lemma validate_Messages_json (W : World) (msgs : list Message) :
  validate_Messages W (map json_of_Message msgs) = Some msgs.
Proof.
  induction msgs as [ | m msgs IH].
  - reflexivity.
  - cbn [map validate_Messages].
    rewrite validate_Message_json, IH. reflexivity.
Qed.

Lemma completion_result_tracing_free (W : World) messages model h :
  tracing_raises_Exceptions W ->
  completion_result W messages model h =
  provider_only_result W messages model h.
Proof.
  intro Htr. unfold completion_result, provider_only_result.
  destruct (provider_answer W messages model h) as [response | e];
    [ | reflexivity ].
  destruct (first_choice_content response) as [content | e];
    [ | reflexivity ].
  simpl. rewrite trace_result_Ret by exact Htr. reflexivity.
Qed.

Lemma chat_outcome_success (W : World) request h response text :
  tracing_raises_Exceptions W ->
  provider_answer W (map message_dict (messages request)) (model request) h
    = Ret response ->
  first_choice_content response = Ret (VStr text) ->
  chat_outcome W request h =
  Returned (mkChatResponse (mkMessage "assistant" text) (fresh_trace_id W h)).
Proof.
  intros Htr Hans Hfirst. unfold chat_outcome.
  rewrite (completion_result_success W _ _ h response (VStr text))
    by assumption.
  reflexivity.
Qed.

Lemma post_chat_success (W : World) body request h response text :
  validate_ChatRequest W body = Some request ->
  tracing_raises_Exceptions W ->
  provider_answer W (map message_dict (messages request)) (model request) h
    = Ret response ->
  first_choice_content response = Ret (VStr text) ->
  fst (post_chat W body h) =
  if encodable W text
  then Response 200 (chat_reply text (fresh_trace_id W h))
  else PlainText 500 "Internal Server Error".
Proof.
  intros Hval Htr Hans Hfirst.
  rewrite (post_chat_valid W body request h Hval). simpl.
  rewrite (chat_outcome_success W request h response text) by assumption.
  unfold respond, renders_ChatResponse. simpl.
  destruct (encodable W text); reflexivity.
Qed.

(* ================================================================== *)
(** ** POST /chat: the successful path *)

Lemma stub_tracing_raises_Exceptions answer sdk :
  (forall h s, match sdk with
               | Some f => escapes (f h s) = false
               | None => True
               end) ->
  tracing_raises_Exceptions (Stub.world answer sdk).
Proof.
  intro Hsdk. split.
  - intros [ | d prompt]; reflexivity.
  - intros f h s E. simpl in E. subst sdk. apply (Hsdk h s).
Qed.

(** C1, as the specification states it, fails on the code.  The provider
    call succeeds and the text of its first choice is a lone surrogate:
    [chat] returns the [ChatResponse], the framework cannot encode it, and
    the answer is the server's plain 500, not a 200. *)
Lemma unencodable_reply_is_plain_500 :
  let W := Stub.world (Ret (Stub.completion (VStr lone_surrogate)))
                      Stub.sdk_ok in
  provider_answer W [[("role", "user"); ("content", "Hi")]]
    (Some "gpt-3.5-turbo") [] = Ret (Stub.completion (VStr lone_surrogate)) /\
  first_choice_content (Stub.completion (VStr lone_surrogate))
    = Ret (VStr lone_surrogate) /\
  fst (post_chat W Stub.hi_body []) = PlainText 500 "Internal Server Error" /\
  ~ (exists answer, fst (post_chat W Stub.hi_body []) = Response 200 answer).
Proof.
  intro W. repeat split.
  intros [answer Hanswer]. vm_compute in Hanswer. discriminate Hanswer.
Qed.

(** C1, amended.  For every request body that validates as a [ChatRequest]
    and on which the provider call returns a response whose first
    completion choice carries the text [text], [chat] returns a
    [ChatResponse] whose message has the role "assistant" and exactly [text]
    as content; when the JSON response can encode [text], [POST /chat]
    answers 200 with that message and the trace identifier drawn for the
    call, and when it cannot, the answer is the server's plain 500. *)
Theorem chat_returns_first_completion (W : World) (body : pyval)
    (request : ChatRequest) (h : history) (response : pyval) (text : string) :
  validate_ChatRequest W body = Some request ->
  tracing_raises_Exceptions W ->
  provider_answer W (map message_dict (messages request)) (model request) h
    = Ret response ->
  first_choice_content response = Ret (VStr text) ->
  fst (chat W request h) =
    Returned (mkChatResponse (mkMessage "assistant" text)
                             (fresh_trace_id W h)) /\
  (encodable W text = true ->
   fst (post_chat W body h) =
     Response 200 (chat_reply text (fresh_trace_id W h))) /\
  (encodable W text = false ->
   fst (post_chat W body h) = PlainText 500 "Internal Server Error").
Proof.
  intros Hval Htr Hans Hfirst.
  pose proof (post_chat_success W body request h response text
                Hval Htr Hans Hfirst) as Hpost.
  split; [ | split ].
  - rewrite chat_run. simpl.
    apply (chat_outcome_success W request h response text); assumption.
  - intro Henc. rewrite Henc in Hpost. exact Hpost.
  - intro Henc. rewrite Henc in Hpost. exact Hpost.
Qed.

(** The round trip of the specification: the conversation
    [[{"role": "user", "content": "Hi"}]] and a provider that completes with
    "Hello!". *)
Lemma chat_returns_first_completion_witness :
  fst (chat Stub.hello (mkChatRequest [mkMessage "user" "Hi"]
                                      (Some "gpt-3.5-turbo")) []) =
    Returned (mkChatResponse (mkMessage "assistant" "Hello!")
                             "00000000-0000-4000-8000-000000000000") /\
  fst (post_chat Stub.hello Stub.hi_body []) =
    Response 200 (chat_reply "Hello!" "00000000-0000-4000-8000-000000000000").
Proof.
  destruct (chat_returns_first_completion Stub.hello Stub.hi_body
              (mkChatRequest [mkMessage "user" "Hi"] (Some "gpt-3.5-turbo"))
              [] (Stub.completion (VStr "Hello!")) "Hello!")
    as (Hchat & Hok & _).
  - reflexivity.
  - apply stub_tracing_raises_Exceptions. intros h s. reflexivity.
  - reflexivity.
  - reflexivity.
  - split; [ exact Hchat | apply Hok; reflexivity ].
Defined.

(* ================================================================== *)
(** ** POST /chat: the failing path *)



(* ================================================================== *)
(** ** Tracing is best effort *)

(** C3, as the specification states it, fails on the code.  The provider
    call succeeds, the tracing backend cannot be reached, and the answer is
    not a 200: the text of the reply is a lone surrogate, which the JSON
    response cannot encode, with the tracing failure as without it. *)
Lemma tracing_failure_with_unencodable_reply :
  let W := Stub.world (Ret (Stub.completion (VStr lone_surrogate)))
                      Stub.sdk_down in
  fst (get_chat_completion W [[("role", "user"); ("content", "Hi")]]
         (Some "gpt-3.5-turbo") [])
    = Ret (VStr lone_surrogate, "00000000-0000-4000-8000-000000000000") /\
  In (EvPrint "Error tracing LLM call: tracing backend unreachable")
     (snd (post_chat W Stub.hi_body [])) /\
  fst (post_chat W Stub.hi_body []) = PlainText 500 "Internal Server Error" /\
  ~ (exists answer, fst (post_chat W Stub.hi_body []) = Response 200 answer).
Proof.
  intro W. split; [ reflexivity | split; [ | split; [ reflexivity | ] ] ].
  - vm_compute. auto.
  - intros [answer Hanswer]. vm_compute in Hanswer. discriminate Hanswer.
Qed.

(** C3, amended.  [trace_llm_call] returns normally whatever happens while
    the trace is recorded (every [World] whose tracing raises instances of
    [Exception] is covered): when serialisation raises, when the SDK's call
    raises, and when the SDK was not importable at start-up, all it leaves
    behind is a diagnostic line.  Hence replacing the serialiser and the SDK
    by any others changes neither what [get_chat_completion] hands back nor
    the HTTP response, and when the provider call succeeds with a text the
    JSON response can encode, [POST /chat] answers 200 with the reply as the
    message. *)
Theorem tracing_never_surfaces (W : World) :
  tracing_raises_Exceptions W ->
  (forall trace_id model prompt response response_obj h,
     fst (trace_llm_call W trace_id model prompt response response_obj h)
       = Ret tt) /\
  (forall trace_id model prompt response response_obj h e,
     json_dumps W prompt = Raise e ->
     trace_llm_call W trace_id model prompt response response_obj h =
     (Ret tt, h ++ [EvPrint ("Error tracing LLM call: " +++ exn_str e)])) /\
  (forall trace_id model prompt response response_obj h prompt_str sdk e,
     json_dumps W prompt = Ret prompt_str ->
     sdk_trace W = Some sdk ->
     sdk h (the_span trace_id model prompt_str response) = Raise e ->
     trace_llm_call W trace_id model prompt response response_obj h =
     (Ret tt, h ++ [EvTrace (the_span trace_id model prompt_str response);
                    EvPrint ("Error tracing LLM call: " +++ exn_str e)])) /\
  (forall trace_id model prompt response response_obj h prompt_str,
     json_dumps W prompt = Ret prompt_str ->
     sdk_trace W = None ->
     trace_llm_call W trace_id model prompt response response_obj h =
     (Ret tt, h ++ [EvPrint "Arize Phoenix tracing disabled.";
                    EvPrint ("Traced LLM call with ID: " +++ trace_id)])) /\
  (forall dumps sdk,
     tracing_raises_Exceptions (with_tracing W dumps sdk) ->
     (forall messages model h,
        fst (get_chat_completion (with_tracing W dumps sdk) messages model h)
        = fst (get_chat_completion W messages model h)) /\
     (forall body h,
        fst (post_chat (with_tracing W dumps sdk) body h)
        = fst (post_chat W body h))) /\
  (forall messages model h response content,
     provider_answer W messages model h = Ret response ->
     first_choice_content response = Ret content ->
     fst (get_chat_completion W messages model h)
       = Ret (content, fresh_trace_id W h)) /\
  (forall body request h response text,
     validate_ChatRequest W body = Some request ->
     provider_answer W (map message_dict (messages request))
       (model request) h = Ret response ->
     first_choice_content response = Ret (VStr text) ->
     encodable W text = true ->
     fst (post_chat W body h)
       = Response 200 (chat_reply text (fresh_trace_id W h))).
Proof.
  intro Htr.
  split; [ | split; [ | split; [ | split; [ | split; [ | split ] ] ] ] ].
  - intros. rewrite trace_llm_call_run. simpl.
    apply trace_result_Ret. exact Htr.
  - intros trace_id model prompt response response_obj h e Hdumps.
    rewrite trace_llm_call_run.
    unfold trace_result, trace_events. rewrite Hdumps.
    destruct Htr as [Hd _]. specialize (Hd prompt).
    rewrite Hdumps in Hd. simpl in Hd.
    destruct (exn_is_Exception e); [ reflexivity | discriminate ].
  - intros trace_id model prompt response response_obj h prompt_str sdk e
           Hdumps Hsdk Hraise.
    rewrite trace_llm_call_run.
    unfold trace_result, trace_events. rewrite Hdumps, Hsdk. simpl.
    rewrite Hraise.
    destruct Htr as [_ Hs].
    specialize (Hs sdk h (the_span trace_id model prompt_str response) Hsdk).
    rewrite Hraise in Hs. simpl in Hs.
    destruct (exn_is_Exception e); [ reflexivity | discriminate ].
  - intros trace_id model prompt response response_obj h prompt_str
           Hdumps Hsdk.
    rewrite trace_llm_call_run.
    unfold trace_result, trace_events. rewrite Hdumps, Hsdk. reflexivity.
  - intros dumps sdk Htr'. split.
    + intros messages model h.
      rewrite !get_chat_completion_run. simpl.
      rewrite !completion_result_tracing_free by assumption. reflexivity.
    + intros body h. unfold post_chat.
      rewrite (validate_ChatRequest_ext W (with_tracing W dumps sdk))
        by reflexivity.
      destruct (validate_ChatRequest W body) as [request | ];
        [ | reflexivity ].
      rewrite !chat_run. simpl. unfold chat_outcome.
      rewrite !completion_result_tracing_free by assumption. reflexivity.
  - intros messages model h response content Hans Hfirst.
    rewrite get_chat_completion_run. simpl.
    apply (completion_result_success W messages model h response content);
      assumption.
  - intros body request h response text Hval Hans Hfirst Henc.
    rewrite (post_chat_success W body request h response text)
      by assumption.
    rewrite Henc. reflexivity.
Qed.

(** A tracing backend that cannot be reached, and a process started without
    the SDK. *)
Lemma tracing_never_surfaces_witness :
  fst (trace_llm_call (Stub.world (Ret (Stub.completion (VStr "Hello!")))
                                  Stub.sdk_down)
         "00000000-0000-4000-8000-000000000000" (Some "gpt-3.5-turbo")
         [[("role", "user"); ("content", "Hi")]] (VStr "Hello!")
         (Stub.completion (VStr "Hello!")) []) = Ret tt /\
  fst (post_chat (Stub.world (Ret (Stub.completion (VStr "Hello!")))
                             Stub.sdk_down) Stub.hi_body [])
    = Response 200 (chat_reply "Hello!" "00000000-0000-4000-8000-000000000000")
  /\
  fst (post_chat (Stub.world (Ret (Stub.completion (VStr "Hello!"))) None)
         Stub.hi_body [])
    = fst (post_chat (Stub.world (Ret (Stub.completion (VStr "Hello!")))
                                 Stub.sdk_down) Stub.hi_body []).
Proof.
  destruct (tracing_never_surfaces
              (Stub.world (Ret (Stub.completion (VStr "Hello!")))
                          Stub.sdk_down)) as (Hcall & _ & _ & _ & Hany & _ & Hpost).
  - apply stub_tracing_raises_Exceptions. intros h s. reflexivity.
  - split; [ apply Hcall | split ].
    + apply (Hpost Stub.hi_body
               (mkChatRequest [mkMessage "user" "Hi"] (Some "gpt-3.5-turbo"))
               [] (Stub.completion (VStr "Hello!")) "Hello!"); reflexivity.
    + destruct (Hany Stub.dumps None) as [_ Hsame].
      * apply (stub_tracing_raises_Exceptions
                 (Ret (Stub.completion (VStr "Hello!"))) None).
        intros h s. exact I.
      * apply (Hsame Stub.hi_body []).
Defined.

(** Why the hypothesis on the world: [except Exception] lets through what
    is not an [Exception], so an interrupt delivered while the SDK runs
    leaves [trace_llm_call], [get_chat_completion] and [chat] alike. *)
Lemma interrupt_is_not_caught :
  let interrupt := mkExn "KeyboardInterrupt" false EmptyString in
  let W := Stub.world (Ret (Stub.completion (VStr "Hello!")))
                      (Some (fun _ _ => Raise interrupt)) in
  fst (post_chat W Stub.hi_body []) = Unhandled interrupt /\
  ~ tracing_raises_Exceptions W.
Proof.
  intros interrupt W. split; [ reflexivity | ].
  intros [_ Hsdk].
  specialize (Hsdk (fun _ _ => Raise interrupt) []
                   (the_span EmptyString None EmptyString VNone) eq_refl).
  discriminate Hsdk.
Qed.

(* ================================================================== *)
(** ** Validation at the gateway *)

(** C4, as the specification states it, fails on the code.  A body with an
    empty conversation, and a body whose only message has the role "banana",
    both validate: the provider is called with them and the answer is 200,
    not a 4xx. *)
Lemma empty_conversation_reaches_provider :
  fst (post_chat Stub.hello (VDict [("messages", VList [])]) [])
    = Response 200 (chat_reply "Hello!" "00000000-0000-4000-8000-000000000000")
  /\
  provider_calls (snd (post_chat Stub.hello (VDict [("messages", VList [])]) []))
    = [(Some "gpt-3.5-turbo", [])] /\
  ~ rejected_before_provider Stub.hello (VDict [("messages", VList [])]) [] /\
  provider_calls
    (snd (post_chat Stub.hello
            (chat_body [mkMessage "banana" "Hi"] None) []))
    = [(Some "gpt-3.5-turbo", [[("role", "banana"); ("content", "Hi")]])] /\
  ~ rejected_before_provider Stub.hello
      (chat_body [mkMessage "banana" "Hi"] None) [].
Proof.
  split; [ reflexivity | ].
  split; [ reflexivity | ].
  split; [ | split; [ reflexivity | ] ].
  - intros (status & detail & Hresp & _ & Hcalls).
    vm_compute in Hcalls. discriminate Hcalls.
  - intros (status & detail & Hresp & _ & Hcalls).
    vm_compute in Hcalls. discriminate Hcalls.
Qed.

Lemma validate_Messages_None (W : World) (items : list pyval) (v : pyval) :
  In v items -> validate_Message W v = None ->
  validate_Messages W items = None.
Proof.
  induction items as [ | x items IH]; intros Hin Hbad; [ destruct Hin | ].
  simpl. destruct Hin as [-> | Hin].
  - rewrite Hbad. reflexivity.
  - rewrite (IH Hin Hbad). destruct (validate_Message W x); reflexivity.
Qed.

(** C4, amended.  A request one of whose messages has no role, or has for
    role null, a list or an object, is answered 422 and leaves the history
    as it was, so the completion client is not invoked and the provider is
    not reached.  A conversation that is empty, and roles that are any text
    at all, are not refused: every list of messages with text roles and
    contents validates and is what the provider is called with. *)
Theorem malformed_body_is_422 (W : World) (body : pyval)
    (fields : list (string * pyval)) (items : list pyval) (v : pyval)
    (entries : list (string * pyval)) (h : history) :
  as_object W body = Some fields ->
  lookup "messages" fields = Some (VList items) ->
  In v items ->
  as_object W v = Some entries ->
  lookup "role" entries = None \/
  lookup "role" entries = Some VNone \/
  (exists l, lookup "role" entries = Some (VList l)) \/
  (exists d, lookup "role" entries = Some (VDict d)) ->
  (post_chat W body h =
     (Response 422 (VDict [("detail", validation_detail W body)]), h) /\
   rejected_before_provider W body h) /\
  (forall (msgs : list Message) (h' : history),
     validate_ChatRequest W (chat_body msgs None) =
       Some (mkChatRequest msgs (Some default_model)) /\
     provider_calls (snd (post_chat W (chat_body msgs None) h')) =
       provider_calls h' ++ [(Some default_model, map message_dict msgs)]).
Proof.
  intros Hbody Hmessages Hin Hentries Hrole. split.
  - assert (Hmsg : validate_Message W v = None).
    { unfold validate_Message. rewrite Hentries.
      destruct Hrole as [Hr | [Hr | [[l Hr] | [d Hr]]]]; rewrite Hr;
        try reflexivity;
        destruct (lookup "content" entries); reflexivity. }
    assert (Hval : validate_ChatRequest W body = None).
    { unfold validate_ChatRequest. rewrite Hbody, Hmessages.
      rewrite (validate_Messages_None W items v Hin Hmsg). reflexivity. }
    assert (Hrun := post_chat_invalid W body h Hval).
    split; [ exact Hrun | ].
    exists 422%N, (VDict [("detail", validation_detail W body)]).
    rewrite Hrun. simpl. repeat split; try reflexivity; lia.
  - intros msgs h'.
    assert (Hval : validate_ChatRequest W (chat_body msgs None) =
                   Some (mkChatRequest msgs (Some default_model))).
    { unfold chat_body, validate_ChatRequest. simpl.
      rewrite validate_Messages_json. reflexivity. }
    split; [ exact Hval | ].
    rewrite (post_chat_valid W _ _ h' Hval). simpl.
    rewrite provider_calls_app, completion_events_provider_calls.
    reflexivity.
Qed.

(** A conversation whose second message has null for role. *)
Lemma malformed_body_is_422_witness :
  let body :=
    VDict [("messages",
            VList [VDict [("role", VStr "user"); ("content", VStr "Hi")];
                   VDict [("role", VNone); ("content", VStr "Hi")]])] in
  post_chat Stub.hello body [EvPrint "started"] =
    (Response 422 (VDict [("detail", VList [])]), [EvPrint "started"]) /\
  rejected_before_provider Stub.hello body [EvPrint "started"].
Proof.
  intro body.
  apply (malformed_body_is_422 Stub.hello body
           [("messages",
             VList [VDict [("role", VStr "user"); ("content", VStr "Hi")];
                    VDict [("role", VNone); ("content", VStr "Hi")]])]
           [VDict [("role", VStr "user"); ("content", VStr "Hi")];
            VDict [("role", VNone); ("content", VStr "Hi")]]
           (VDict [("role", VNone); ("content", VStr "Hi")])
           [("role", VNone); ("content", VStr "Hi")]
           [EvPrint "started"]).
  - reflexivity.
  - reflexivity.
  - right. left. reflexivity.
  - reflexivity.
  - right. left. reflexivity.
Defined.

(* ================================================================== *)
(** ** Trace identifiers *)

Lemma fresh_trace_id_length (W : World) (h : history) :
  String.length (fresh_trace_id W h) = 36.
Proof. apply uuid_facts.UUID_str_length. Qed.

Lemma fresh_trace_id_inj (W : World) (h1 h2 : history) :
  fresh_trace_id W h1 = fresh_trace_id W h2 ->
  drawn_uuid W h1 = drawn_uuid W h2.
Proof.
  apply uuid_facts.UUID_str_inj; apply uuid_facts.UUID_v4_lt.
Qed.

Lemma completion_result_trace_id (W : World) messages model h content tid :
  completion_result W messages model h = Ret (content, tid) ->
  tid = fresh_trace_id W h.
Proof.
  unfold completion_result.
  destruct (provider_answer W messages model h) as [response | e];
    [ | discriminate ].
  destruct (first_choice_content response) as [c | e]; [ | discriminate ].
  simpl. destruct (trace_result W _ model messages c _) as [[] | e];
    [ | discriminate ].
  intro E. injection E as _ E. symmetry. exact E.
Qed.

(** C5.  Every call of [get_chat_completion] first reads the random source
    and only then calls the provider; the identifier a successful call
    returns is the [str] of the version-4 UUID made from that read, 36
    characters long and so never empty; and two successful calls, also with
    the same messages and model, return different identifiers whenever the
    UUIDs drawn for them differ: nothing is cached from one call to the
    next. *)
Theorem trace_id_fresh_per_call (W : World) (messages : list strdict)
    (model : option string) :
  (forall h, exists rest,
     snd (get_chat_completion W messages model h) =
     h ++ EvUrandom (urandom16 W h) :: EvProviderCall model messages :: rest)
  /\
  (forall h content tid,
     fst (get_chat_completion W messages model h) = Ret (content, tid) ->
     tid = uuid.UUID_str (uuid.UUID_v4 (urandom16 W h)) /\
     String.length tid = 36 /\ tid <> EmptyString) /\
  (forall h1 h2 content1 tid1 content2 tid2,
     fst (get_chat_completion W messages model h1) = Ret (content1, tid1) ->
     fst (get_chat_completion W messages model h2) = Ret (content2, tid2) ->
     drawn_uuid W h1 <> drawn_uuid W h2 ->
     tid1 <> tid2).
Proof.
  split; [ | split ].
  - intro h. rewrite get_chat_completion_run. simpl.
    unfold completion_events, call_prefix. simpl. eexists. reflexivity.
  - intros h content tid Hres.
    rewrite get_chat_completion_run in Hres. simpl in Hres.
    apply completion_result_trace_id in Hres. subst tid.
    split; [ reflexivity | ].
    pose proof (fresh_trace_id_length W h) as Hlen.
    split; [ exact Hlen | ].
    intro E. rewrite E in Hlen. discriminate Hlen.
  - intros h1 h2 content1 tid1 content2 tid2 H1 H2 Hdiff E.
    rewrite get_chat_completion_run in H1, H2. simpl in H1, H2.
    apply completion_result_trace_id in H1, H2. subst tid1 tid2.
    apply Hdiff, fresh_trace_id_inj, E.
Qed.

(** Two calls in a row with the same conversation and model. *)
Lemma trace_id_fresh_per_call_witness :
  let messages := [[("role", "user"); ("content", "Hi")]] in
  let model := Some "gpt-3.5-turbo" in
  let first := get_chat_completion Stub.hello messages model [] in
  let second := get_chat_completion Stub.hello messages model (snd first) in
  fst first = Ret (VStr "Hello!", "00000000-0000-4000-8000-000000000000") /\
  fst second = Ret (VStr "Hello!", "00000000-0000-4000-8000-000000000004") /\
  "00000000-0000-4000-8000-000000000000" <>
  "00000000-0000-4000-8000-000000000004".
Proof.
  intros messages model first second.
  split; [ reflexivity | split; [ reflexivity | ] ].
  destruct (trace_id_fresh_per_call Stub.hello messages model)
    as (_ & _ & Hdistinct).
  apply (Hdistinct [] (snd first) (VStr "Hello!") _ (VStr "Hello!") _).
  - reflexivity.
  - reflexivity.
  - vm_compute. discriminate.
Defined.

(* ================================================================== *)
(** ** The model identifier *)

Lemma post_chat_provider_call (W : World) body request h :
  validate_ChatRequest W body = Some request ->
  snd (post_chat W body h) =
    snd (get_chat_completion W (map message_dict (messages request))
           (model request) h) /\
  provider_calls (snd (post_chat W body h)) =
    provider_calls h ++
      [(model request, map message_dict (messages request))].
Proof.
  intro Hval.
  rewrite (post_chat_valid W body request h Hval).
  rewrite get_chat_completion_run. simpl.
  split; [ reflexivity | ].
  rewrite provider_calls_app, completion_events_provider_calls. reflexivity.
Qed.

Lemma validate_ChatRequest_fields (W : World) fields items msgs chosen :
  lookup "messages" fields = Some (VList items) ->
  validate_Messages W items = Some msgs ->
  validate_model W (lookup "model" fields) = Some chosen ->
  validate_ChatRequest W (VDict fields) = Some (mkChatRequest msgs chosen).
Proof.
  intros Hmessages Hitems Hmodel.
  unfold validate_ChatRequest, as_object.
  rewrite Hmessages, Hitems, Hmodel. reflexivity.
Qed.

(** A [model] entry that is the empty string is not replaced by the
    default: it is text like any other and goes to the provider as it is. *)
Lemma empty_string_model_passed_through (W : World) (msgs : list Message)
    (h : history) :
  provider_calls (snd (post_chat W (chat_body msgs (Some (VStr EmptyString))) h))
  = provider_calls h ++ [(Some EmptyString, map message_dict msgs)].
Proof.
  apply (post_chat_provider_call W _ (mkChatRequest msgs (Some EmptyString))).
  unfold chat_body, validate_ChatRequest. simpl.
  rewrite validate_Messages_json. reflexivity.
Qed.

(** C6, as the specification states it, fails on the code.  With a [model]
    field that is present and empty, the empty string, the provider is
    called with the empty string, not with the default. *)
Lemma empty_model_reaches_provider :
  let body := chat_body [mkMessage "user" "Hi"] (Some (VStr EmptyString)) in
  validate_ChatRequest Stub.hello body =
    Some (mkChatRequest [mkMessage "user" "Hi"] (Some EmptyString)) /\
  provider_calls (snd (post_chat Stub.hello body [])) =
    [(Some EmptyString, [[("role", "user"); ("content", "Hi")]])] /\
  provider_calls (snd (post_chat Stub.hello body [])) <>
    [(Some "gpt-3.5-turbo", [[("role", "user"); ("content", "Hi")]])].
Proof.
  intro body. split; [ reflexivity | split; [ reflexivity | ] ].
  vm_compute. discriminate.
Qed.

(** C6, amended.  When the body of the request has no [model] entry, the
    request validates with the model "gpt-3.5-turbo", and that identifier,
    which is not the empty string, is what the provider is called with.  A
    [model] entry that is present but empty, the empty string or null, is
    passed to the provider as it is given: the default does not replace
    it. *)
Theorem missing_model_uses_default (W : World)
    (fields : list (string * pyval)) (items : list pyval)
    (msgs : list Message) (h : history) :
  lookup "messages" fields = Some (VList items) ->
  validate_Messages W items = Some msgs ->
  (lookup "model" fields = None ->
   validate_ChatRequest W (VDict fields) =
     Some (mkChatRequest msgs (Some "gpt-3.5-turbo")) /\
   provider_calls (snd (post_chat W (VDict fields) h)) =
     provider_calls h ++ [(Some "gpt-3.5-turbo", map message_dict msgs)] /\
   "gpt-3.5-turbo" <> EmptyString) /\
  (lookup "model" fields = Some (VStr EmptyString) ->
   validate_ChatRequest W (VDict fields) =
     Some (mkChatRequest msgs (Some EmptyString)) /\
   provider_calls (snd (post_chat W (VDict fields) h)) =
     provider_calls h ++ [(Some EmptyString, map message_dict msgs)]) /\
  (lookup "model" fields = Some VNone ->
   validate_ChatRequest W (VDict fields) = Some (mkChatRequest msgs None) /\
   provider_calls (snd (post_chat W (VDict fields) h)) =
     provider_calls h ++ [(None, map message_dict msgs)]).
Proof.
  intros Hmessages Hitems.
  assert (Hcase : forall chosen,
            validate_model W (lookup "model" fields) = Some chosen ->
            validate_ChatRequest W (VDict fields) =
              Some (mkChatRequest msgs chosen) /\
            provider_calls (snd (post_chat W (VDict fields) h)) =
              provider_calls h ++ [(chosen, map message_dict msgs)]).
  { intros chosen Hmodel.
    pose proof (validate_ChatRequest_fields W fields items msgs chosen
                  Hmessages Hitems Hmodel) as Hval.
    split; [ exact Hval | ].
    apply (post_chat_provider_call W (VDict fields) _ h Hval). }
  split; [ | split ].
  - intro Hmodel.
    destruct (Hcase (Some "gpt-3.5-turbo")) as [Hval Hcalls].
    { rewrite Hmodel. reflexivity. }
    split; [ exact Hval | split; [ exact Hcalls | discriminate ] ].
  - intro Hmodel. apply Hcase. rewrite Hmodel. reflexivity.
  - intro Hmodel. apply Hcase. rewrite Hmodel. reflexivity.
Qed.

Lemma missing_model_uses_default_witness :
  validate_ChatRequest Stub.hello Stub.hi_body =
    Some (mkChatRequest [mkMessage "user" "Hi"] (Some "gpt-3.5-turbo")) /\
  provider_calls (snd (post_chat Stub.hello Stub.hi_body [])) =
    [(Some "gpt-3.5-turbo", [[("role", "user"); ("content", "Hi")]])] /\
  "gpt-3.5-turbo" <> EmptyString.
Proof.
  destruct (missing_model_uses_default Stub.hello
              [("messages",
                VList [VDict [("role", VStr "user"); ("content", VStr "Hi")]])]
              [VDict [("role", VStr "user"); ("content", VStr "Hi")]]
              [mkMessage "user" "Hi"] []) as (Hmissing & _ & _).
  - reflexivity.
  - reflexivity.
  - apply Hmissing. reflexivity.
Defined.

(** C10.  When the body sets [model] to null, the request validates with
    the model [None], the default is not applied, [get_chat_completion] runs
    with the model [None] and the provider is called with [None]. *)
Theorem null_model_passed_through (W : World)
    (fields : list (string * pyval)) (items : list pyval)
    (msgs : list Message) (h : history) :
  lookup "model" fields = Some VNone ->
  lookup "messages" fields = Some (VList items) ->
  validate_Messages W items = Some msgs ->
  validate_ChatRequest W (VDict fields) = Some (mkChatRequest msgs None) /\
  snd (post_chat W (VDict fields) h) =
    snd (get_chat_completion W (map message_dict msgs) None h) /\
  provider_calls (snd (post_chat W (VDict fields) h)) =
    provider_calls h ++ [(None, map message_dict msgs)].
Proof.
  intros Hmodel Hmessages Hitems.
  assert (Hval : validate_ChatRequest W (VDict fields) =
                 Some (mkChatRequest msgs None)).
  { unfold validate_ChatRequest, as_object.
    rewrite Hmessages, Hitems, Hmodel. reflexivity. }
  split; [ exact Hval | ].
  apply (post_chat_provider_call W (VDict fields) _ h Hval).
Qed.

Lemma null_model_passed_through_witness :
  validate_ChatRequest Stub.hello
    (chat_body [mkMessage "user" "Hi"] (Some VNone)) =
    Some (mkChatRequest [mkMessage "user" "Hi"] None) /\
  snd (post_chat Stub.hello (chat_body [mkMessage "user" "Hi"] (Some VNone)) [])
    = snd (get_chat_completion Stub.hello
             [[("role", "user"); ("content", "Hi")]] None []) /\
  provider_calls
    (snd (post_chat Stub.hello
            (chat_body [mkMessage "user" "Hi"] (Some VNone)) []))
    = [(None, [[("role", "user"); ("content", "Hi")]])].
Proof.
  apply (null_model_passed_through Stub.hello
           [("messages",
             VList [VDict [("role", VStr "user"); ("content", VStr "Hi")]]);
            ("model", VNone)]
           [VDict [("role", VStr "user"); ("content", VStr "Hi")]]
           [mkMessage "user" "Hi"] []).
  - reflexivity.
  - reflexivity.
  - reflexivity.
Defined.

(* ================================================================== *)
(** ** Reading back what [Json.dumps] writes *)

Module Json_facts.
Import Json.

Lemma read_write_char (c : ascii) (k : string) :
  read_chars (write_char c k) = push c (read_chars k).
Proof.
  destruct c as [[] [] [] [] [] [] [] []]; reflexivity.
Qed.

Lemma read_write_chars (s k : string) :
  read_chars (write_chars s (String quote k)) = Some (s, k).
Proof.
  induction s as [ | c s IH]; simpl.
  - reflexivity.
  - rewrite read_write_char, IH. reflexivity.
Qed.

Lemma read_write_string (s k : string) :
  read_string (write_string s k) = Some (s, k).
Proof.
  unfold read_string, write_string. simpl. apply read_write_chars.
Qed.

Lemma strip_append (p s : string) : strip p (p +++ s) = Some s.
Proof.
  induction p as [ | a p IH]; simpl; [ reflexivity | ].
  rewrite Ascii.eqb_refl. exact IH.
Qed.

Lemma strip_comma_at_line_end (s : string) :
  strip ("," +++ nl) (nl +++ s) = None.
Proof. reflexivity. Qed.

Lemma strip_comma (s : string) : strip ("," +++ nl) ("," +++ nl +++ s) = Some s.
Proof. reflexivity. Qed.

Lemma strip_closing_brace (s : string) :
  strip (nl +++ "  }") (nl +++ "  }" +++ s) = Some s.
Proof. reflexivity. Qed.

Lemma strip_closing_bracket :
  strip (nl +++ "]") (nl +++ "]") = Some EmptyString.
Proof. reflexivity. Qed.

Lemma strip_empty_object_at_open (s : string) :
  strip "{}" ("{" +++ nl +++ s) = None.
Proof. reflexivity. Qed.

Lemma strip_empty_object (s : string) : strip "{}" ("{}" +++ s) = Some s.
Proof. reflexivity. Qed.

Lemma strip_open_object (s : string) :
  strip ("{" +++ nl) ("{" +++ nl +++ s) = Some s.
Proof. reflexivity. Qed.

Lemma strip_indent (s : string) : strip "  " ("  " +++ s) = Some s.
Proof. reflexivity. Qed.

Lemma strip_open_list (s : string) :
  strip ("[" +++ nl) ("[" +++ nl +++ s) = Some s.
Proof. reflexivity. Qed.

Lemma read_write_pair (kv : string * string) (k : string) :
  read_pair (write_pair kv k) = Some (kv, k).
Proof.
  unfold read_pair, write_pair.
  rewrite strip_append, read_write_string, strip_append, read_write_string.
  destruct kv; reflexivity.
Qed.

Lemma append_length (p s : string) :
  String.length (p +++ s) = String.length p + String.length s.
Proof.
  induction p as [ | a p IH]; simpl; [ reflexivity | rewrite IH; reflexivity ].
Qed.

Lemma write_char_length (c : ascii) (k : string) :
  String.length k < String.length (write_char c k).
Proof.
  destruct c as [[] [] [] [] [] [] [] []]; simpl; lia.
Qed.

Lemma write_chars_length (s k : string) :
  String.length k <= String.length (write_chars s k).
Proof.
  induction s as [ | c s IH]; simpl; [ lia | ].
  pose proof (write_char_length c (write_chars s k)). lia.
Qed.

Lemma write_string_length (s k : string) :
  String.length k < String.length (write_string s k).
Proof.
  unfold write_string. cbn [String.length].
  pose proof (write_chars_length s (String quote k)) as H.
  cbn [String.length] in H. lia.
Qed.

Ltac lengths :=
  rewrite ?append_length in *;
  change (String.length nl) with 1 in *;
  cbn [List.length String.length] in *; lia.

Lemma write_pair_length (kv : string * string) (k : string) :
  String.length k < String.length (write_pair kv k).
Proof.
  unfold write_pair.
  pose proof (write_string_length (fst kv)
                (": " +++ write_string (snd kv) k)) as H1.
  pose proof (write_string_length (snd kv) k) as H2. lengths.
Qed.

Lemma write_pairs_length (d : strdict) (k : string) :
  List.length d + String.length k <= String.length (write_pairs d k).
Proof.
  induction d as [ | kv d IH]; [ simpl; lia | ].
  cbn [write_pairs].
  destruct d as [ | kv' d].
  - pose proof (write_pair_length kv k). lengths.
  - pose proof (write_pair_length kv
                  ("," +++ nl +++ write_pairs (kv' :: d) k)) as H1.
    lengths.
Qed.

Lemma write_dict_length (d : strdict) (k : string) :
  List.length d + String.length k <= String.length (write_dict d k).
Proof.
  destruct d as [ | kv d]; unfold write_dict.
  - lengths.
  - pose proof (write_pairs_length (kv :: d) (nl +++ "  }" +++ k)) as H1.
    lengths.
Qed.

Lemma write_items_length (p : list strdict) (k : string) :
  List.length p + String.length k <= String.length (write_items p k).
Proof.
  induction p as [ | d p IH]; [ simpl; lia | ].
  cbn [write_items].
  destruct p as [ | d' p].
  - pose proof (write_dict_length d k). lengths.
  - pose proof (write_dict_length d
                  ("," +++ nl +++ write_items (d' :: p) k)) as H1.
    lengths.
Qed.

(** after an object or a list comes a comma or a closing line; their first
    characters tell them apart *)
Lemma read_pairs_write (fuel : nat) (d : strdict) (k : string) :
  d <> [] -> List.length d <= fuel ->
  read_pairs fuel (write_pairs d (nl +++ "  }" +++ k)) = Some (d, k).
Proof.
  revert d. induction fuel as [ | fuel IH]; intros d Hne Hlen.
  - destruct d; [ contradiction | simpl in Hlen; lia ].
  - destruct d as [ | kv d]; [ contradiction | ].
    cbn [read_pairs write_pairs].
    destruct d as [ | kv' d].
    + rewrite read_write_pair, strip_comma_at_line_end, strip_closing_brace.
      reflexivity.
    + rewrite read_write_pair, strip_comma.
      rewrite IH; [ reflexivity | discriminate | simpl in Hlen |- *; lia ].
Qed.

Lemma read_dict_write (fuel : nat) (d : strdict) (k : string) :
  List.length d <= fuel ->
  read_dict fuel (write_dict d k) = Some (d, k).
Proof.
  intro Hlen. unfold read_dict, write_dict.
  destruct d as [ | kv d].
  - rewrite strip_empty_object. reflexivity.
  - rewrite strip_empty_object_at_open, strip_open_object.
    apply read_pairs_write; [ discriminate | exact Hlen ].
Qed.

Lemma read_items_write (fuel : nat) (p : list strdict) :
  p <> [] -> List.length p <= fuel ->
  read_items fuel (write_items p (nl +++ "]")) = Some (p, EmptyString).
Proof.
  revert p. induction fuel as [ | fuel IH]; intros p Hne Hlen.
  - destruct p; [ contradiction | simpl in Hlen; lia ].
  - destruct p as [ | d p]; [ contradiction | ].
    cbn [read_items write_items].
    destruct p as [ | d' p].
    + rewrite strip_indent, read_dict_write.
      * rewrite strip_comma_at_line_end, strip_closing_bracket. reflexivity.
      * pose proof (write_dict_length d (nl +++ "]")). lengths.
    + rewrite strip_indent, read_dict_write.
      * rewrite strip_comma.
        rewrite IH; [ reflexivity | discriminate | simpl in Hlen |- *; lia ].
      * pose proof (write_dict_length d
                      ("," +++ nl +++ write_items (d' :: p) (nl +++ "]"))).
        lengths.
Qed.

(** the round trip: a serialised conversation reads back as it was *)
Lemma loads_dumps (p : list strdict) : loads (dumps p) = Some p.
Proof.
  destruct p as [ | d p]; [ reflexivity | ].
  unfold loads, dumps.
  replace (String.eqb ("[" +++ nl +++ write_items (d :: p) (nl +++ "]")) "[]")
    with false by reflexivity.
  rewrite strip_open_list.
  rewrite read_items_write; [ reflexivity | discriminate | ].
  pose proof (write_items_length (d :: p) (nl +++ "]")). lengths.
Qed.

End Json_facts.

(* ================================================================== *)
(** ** The conversation on its way through *)

Lemma trace_events_spans (W : World) trace_id model prompt response h s :
  In s (spans (trace_events W trace_id model prompt response h)) ->
  json_dumps W prompt = Ret (span_inputs_prompt s) /\
  span_inputs_model s = model /\
  span_outputs_response s = response /\
  span_id s = trace_id.
Proof.
  unfold trace_events.
  destruct (json_dumps W prompt) as [prompt_str | e].
  - destruct (sdk_trace W) as [sdk | ]; [ | intros [] ].
    assert (Hone : In s [the_span trace_id model prompt_str response] ->
                   Ret prompt_str = Ret (span_inputs_prompt s) /\
                   span_inputs_model s = model /\
                   span_outputs_response s = response /\
                   span_id s = trace_id).
    { intros [<- | []]. repeat split. }
    destruct (sdk h _) as [[] | e]; [ exact Hone | ].
    destruct (exn_is_Exception e); exact Hone.
  - destruct (exn_is_Exception e); intros [].
Qed.

Lemma completion_events_spans (W : World) messages model h s :
  In s (spans (completion_events W messages model h)) ->
  json_dumps W messages = Ret (span_inputs_prompt s) /\
  span_inputs_model s = model /\
  span_id s = fresh_trace_id W h.
Proof.
  unfold completion_events, call_prefix. simpl.
  destruct (provider_answer W messages model h) as [response | e].
  - destruct (first_choice_content response) as [content | e].
    + rewrite spans_app. intro Hin. apply in_app_or in Hin.
      destruct Hin as [Hin | Hin].
      * apply trace_events_spans in Hin.
        destruct Hin as (Hp & Hm & _ & Hid). repeat split; assumption.
      * destruct (trace_result W _ model messages content _) as [[] | e];
          [ destruct Hin | ].
        destruct (exn_is_Exception e); destruct Hin.
    + destruct (exn_is_Exception e); intros [].
  - destruct (exn_is_Exception e); intros [].
Qed.

Lemma completion_events_spans_traced (W : World) messages model h response
    content prompt_str sdk :
  provider_answer W messages model h = Ret response ->
  first_choice_content response = Ret content ->
  json_dumps W messages = Ret prompt_str ->
  sdk_trace W = Some sdk ->
  spans (completion_events W messages model h) =
  [the_span (fresh_trace_id W h) model prompt_str content].
Proof.
  intros Hans Hfirst Hdumps Hsdk.
  unfold completion_events, call_prefix, trace_result, trace_events.
  rewrite Hans, Hfirst. simpl. rewrite Hdumps, Hsdk.
  destruct (sdk _ _) as [[] | e]; [ reflexivity | ].
  destruct (exn_is_Exception e) eqn:HE; simpl; [ reflexivity | ].
  rewrite HE. reflexivity.
Qed.

(** C7.  The messages of a request reach the provider and the trace as they
    came: validation keeps a list of well-typed messages as it is; the
    provider is called once, with one dictionary per message of the request,
    in the request's order, holding that message's role and content; every
    span handed to the tracing SDK carries as its prompt the serialisation
    of that same list, from which, the serialiser being [json.dumps], the
    list reads back as it was; and a call whose provider answered with a
    readable content, in a world with an SDK, hands over exactly one such
    span. *)
Theorem conversation_preserved (W : World) (request : ChatRequest)
    (h : history) :
  let sent := map message_dict (messages request) in
  (forall model_entry request',
     validate_ChatRequest W (chat_body (messages request) model_entry)
       = Some request' ->
     messages request' = messages request) /\
  provider_calls (snd (chat W request h)) =
    provider_calls h ++ [(model request, sent)] /\
  List.length sent = List.length (messages request) /\
  (forall i msg, nth_error (messages request) i = Some msg ->
     nth_error sent i = Some [("role", role msg); ("content", content msg)]) /\
  (exists recorded,
     spans (snd (chat W request h)) = spans h ++ recorded /\
     forall s, In s recorded ->
       json_dumps W sent = Ret (span_inputs_prompt s) /\
       (json_dumps W sent = Ret (Json.dumps sent) ->
        Json.loads (span_inputs_prompt s) = Some sent)) /\
  (forall response content prompt_str sdk,
     provider_answer W sent (model request) h = Ret response ->
     first_choice_content response = Ret content ->
     json_dumps W sent = Ret prompt_str ->
     sdk_trace W = Some sdk ->
     spans (snd (chat W request h)) =
     spans h ++ [the_span (fresh_trace_id W h) (model request) prompt_str
                          content]).
Proof.
  intro sent. repeat split.
  - intros model_entry request' Hval.
    unfold chat_body, validate_ChatRequest in Hval. simpl in Hval.
    rewrite validate_Messages_json in Hval.
    destruct (validate_model W _) as [m | ]; [ | discriminate ].
    injection Hval as <-. reflexivity.
  - rewrite chat_run. simpl.
    rewrite provider_calls_app, completion_events_provider_calls.
    reflexivity.
  - apply length_map.
  - intros i msg Hnth. unfold sent.
    rewrite nth_error_map, Hnth. reflexivity.
  - rewrite chat_run. simpl. rewrite spans_app.
    eexists. split; [ reflexivity | ].
    intros s Hin. apply completion_events_spans in Hin.
    destruct Hin as (Hprompt & _ & _).
    split; [ exact Hprompt | ].
    intro Hjson. fold sent in Hprompt. rewrite Hjson in Hprompt.
    injection Hprompt as <-. apply Json_facts.loads_dumps.
  - intros response content prompt_str sdk Hans Hfirst Hdumps Hsdk.
    rewrite chat_run. simpl. rewrite spans_app. f_equal.
    apply (completion_events_spans_traced W sent (model request) h response
             content prompt_str sdk Hans Hfirst Hdumps Hsdk).
Qed.

(** A conversation of three messages, in the order they were sent, the
    serialiser being [json.dumps]: the one span recorded carries their
    serialisation, which reads back as the three messages in that order. *)
Lemma conversation_preserved_witness :
  let W := with_tracing Stub.hello (fun p => Ret (Json.dumps p))
                        Stub.sdk_ok in
  let request :=
    mkChatRequest [mkMessage "system" "Be brief.";
                   mkMessage "user" "Hi";
                   mkMessage "user" "Anyone there?"]
                  (Some "gpt-3.5-turbo") in
  let sent := [[("role", "system"); ("content", "Be brief.")];
               [("role", "user"); ("content", "Hi")];
               [("role", "user"); ("content", "Anyone there?")]] in
  provider_calls (snd (chat W request [])) =
    [(Some "gpt-3.5-turbo", sent)] /\
  spans (snd (chat W request [])) =
    [the_span "00000000-0000-4000-8000-000000000000" (Some "gpt-3.5-turbo")
              (Json.dumps sent) (VStr "Hello!")] /\
  forall s, In s (spans (snd (chat W request []))) ->
    Json.loads (span_inputs_prompt s) = Some sent.
Proof.
  intros W request sent.
  destruct (conversation_preserved W request [])
    as (_ & Hcalls & _ & _ & (recorded & Hspans & Hprompt) & Hone).
  split; [ exact Hcalls | split ].
  - apply (Hone (Stub.completion (VStr "Hello!")) (VStr "Hello!")
             (Json.dumps sent) (fun _ _ => Ret tt)); reflexivity.
  - intros s Hin. rewrite Hspans in Hin.
    apply (Hprompt s Hin). reflexivity.
Defined.

(* ================================================================== *)
(** ** Failures of the completion client *)

(** C8, as the specification states it, fails on the code: there is no
    [ProviderError].  When the response holds no completion the lookup of
    [choices[0]] raises [IndexError], and that very exception is what
    [get_chat_completion] raises after the diagnostic. *)
Lemma no_completion_raises_IndexError :
  let W := Stub.world (Ret (VDict [("choices", VList [])])) Stub.sdk_ok in
  get_chat_completion W [[("role", "user"); ("content", "Hi")]]
    (Some "gpt-3.5-turbo") [] =
  (Raise (Exc "IndexError" "list index out of range"),
   [EvUrandom 0;
    EvProviderCall (Some "gpt-3.5-turbo")
      [[("role", "user"); ("content", "Hi")]];
    EvPrint "Error calling OpenAI API: list index out of range"]) /\
  ~ (exists e h',
       get_chat_completion W [[("role", "user"); ("content", "Hi")]]
         (Some "gpt-3.5-turbo") [] = (Raise e, h') /\
       exn_class e = "ProviderError").
Proof.
  intro W. split; [ reflexivity | ].
  intros (e & h' & Hrun & Hclass).
  vm_compute in Hrun. injection Hrun as <- _.
  discriminate Hclass.
Qed.

(** reading the content out of a response raises nothing but [Exception]s *)
Lemma first_choice_content_raises_Exception (response : pyval) (e : exn) :
  first_choice_content response = Raise e -> exn_is_Exception e = true.
Proof.
  assert (Hattr : forall v name e', getattr v name = Raise e' ->
                                    exn_is_Exception e' = true).
  { intros v name e'. unfold getattr.
    destruct v; try (intro E; injection E as <-; reflexivity).
    destruct (lookup name fields); [ discriminate | ].
    intro E; injection E as <-; reflexivity. }
  assert (Hitem : forall v e', getitem0 v = Raise e' ->
                               exn_is_Exception e' = true).
  { intros v e'. unfold getitem0.
    destruct v as [ | b | n | [ | c s] | [ | x items] | fields];
      try discriminate; intro E; injection E as <-; reflexivity. }
  unfold first_choice_content, rbind.
  destruct (getattr response "choices") as [choices | e1] eqn:E1.
  - destruct (getitem0 choices) as [choice | e2] eqn:E2.
    + destruct (getattr choice "message") as [msg | e3] eqn:E3.
      * apply Hattr.
      * intro E. injection E as <-. apply (Hattr _ _ _ E3).
    + intro E. injection E as <-. apply (Hitem _ _ E2).
  - intro E. injection E as <-. apply (Hattr _ _ _ E1).
Qed.

(** C8, amended.  Whenever the provider call raises an [Exception] [e], or
    it returns a response from which [choices[0].message.content] cannot be
    read, the lookup raising [e] (an [AttributeError] when a field is
    missing, an [IndexError] when the list of choices is empty),
    [get_chat_completion] prints "Error calling OpenAI API: " followed by
    [str(e)] and then raises [e] itself, unchanged, to its caller. *)
Theorem provider_failure_reraised (W : World) (messages : list strdict)
    (model : option string) (h : history) (e : exn) :
  (provider_answer W messages model h = Raise e /\
   exn_is_Exception e = true) \/
  (exists response,
     provider_answer W messages model h = Ret response /\
     first_choice_content response = Raise e) ->
  get_chat_completion W messages model h =
  (Raise e,
   h ++ [EvUrandom (urandom16 W h);
         EvProviderCall model messages;
         EvPrint ("Error calling OpenAI API: " +++ exn_str e)]) /\
  (forall fields,
     lookup "choices" fields = None ->
     first_choice_content (VDict fields) =
     Raise (Exc "AttributeError" "choices")) /\
  (forall fields,
     lookup "choices" fields = Some (VList []) ->
     first_choice_content (VDict fields) =
     Raise (Exc "IndexError" "list index out of range")).
Proof.
  intros Hfail. split; [ | split ].
  - rewrite get_chat_completion_run.
    unfold completion_result, completion_events, call_prefix.
    destruct Hfail as [[Hans HE] | (response & Hans & Hfirst)].
    + rewrite Hans, HE. reflexivity.
    + rewrite Hans, Hfirst.
      rewrite (first_choice_content_raises_Exception response e Hfirst).
      reflexivity.
  - intros fields Hnone. unfold first_choice_content, getattr.
    rewrite Hnone. reflexivity.
  - intros fields Hempty. unfold first_choice_content, getattr.
    rewrite Hempty. reflexivity.
Qed.

(** A provider that answers without any completion. *)
Lemma provider_failure_reraised_witness :
  get_chat_completion
    (Stub.world (Ret (VDict [("choices", VList [])])) Stub.sdk_ok)
    [[("role", "user"); ("content", "Hi")]] (Some "gpt-3.5-turbo") [] =
  (Raise (Exc "IndexError" "list index out of range"),
   [EvUrandom 0;
    EvProviderCall (Some "gpt-3.5-turbo")
      [[("role", "user"); ("content", "Hi")]];
    EvPrint "Error calling OpenAI API: list index out of range"]).
Proof.
  apply (provider_failure_reraised
           (Stub.world (Ret (VDict [("choices", VList [])])) Stub.sdk_ok)
           [[("role", "user"); ("content", "Hi")]] (Some "gpt-3.5-turbo") []
           (Exc "IndexError" "list index out of range")).
  right. exists (VDict [("choices", VList [])]).
  split; reflexivity.
Defined.

(* ================================================================== *)
(** ** GET /health *)

(** C9.  [GET /health] answers 200 with [{"status": "healthy"}] from every
    history and leaves the history as it found it; the handler does not
    consult the world, so neither the provider nor tracing can change the
    answer. *)
Theorem health_always_healthy (W : World) (h : history) :
  health_check h = (Returned [("status", "healthy")], h) /\
  get_health h = (Response 200 (VDict [("status", VStr "healthy")]), h).
Proof.
  split; reflexivity.
Qed.


(* ================================================================== *)
(** ** Reading the content out of a provider response *)

(** [response.choices[0].message.content] can be read exactly from a
    response that is an object whose [choices] is a list starting with an
    object whose [message] is an object with a [content] entry; the content
    read is that entry, whatever follows the first choice. *)
Theorem first_choice_content_shape (response content : pyval) :
  first_choice_content response = Ret content <->
  exists fields choice_fields rest message_fields,
    response = VDict fields /\
    lookup "choices" fields = Some (VList (VDict choice_fields :: rest)) /\
    lookup "message" choice_fields = Some (VDict message_fields) /\
    lookup "content" message_fields = Some content.
Proof.
  split.
  - unfold first_choice_content, rbind.
    destruct response as [ | b | n | s | items | fields];
      try discriminate.
    unfold getattr at 1.
    destruct (lookup "choices" fields) as [choices | ] eqn:Hchoices;
      [ | discriminate ].
    destruct choices as [ | b | n | [ | c s] | [ | choice rest] | cf];
      simpl; try discriminate.
    destruct choice as [ | b | n | s | items | choice_fields];
        try discriminate.
      unfold getattr at 1.
      destruct (lookup "message" choice_fields) as [msg | ] eqn:Hmsg;
        [ | discriminate ].
      destruct msg as [ | b | n | s | items | message_fields];
        try discriminate.
      unfold getattr.
      destruct (lookup "content" message_fields) as [c | ] eqn:Hcontent;
        [ | discriminate ].
      intro E. injection E as <-.
      exists fields, choice_fields, rest, message_fields.
      repeat split; assumption.
  - intros (fields & choice_fields & rest & message_fields
            & -> & Hchoices & Hmsg & Hcontent).
    unfold first_choice_content, rbind, getattr.
    rewrite Hchoices. simpl. rewrite Hmsg, Hcontent. reflexivity.
Qed.

(* ================================================================== *)
(** ** The answers POST /chat can give *)

Lemma chat_outcome_cases (W : World) request h :
  (exists text,
     chat_outcome W request h =
     Returned (mkChatResponse (mkMessage "assistant" text)
                              (fresh_trace_id W h))) \/
  (exists detail, chat_outcome W request h = HTTPException 500 detail) \/
  (exists e, chat_outcome W request h = Uncaught e /\
             exn_is_Exception e = false).
Proof.
  unfold chat_outcome.
  destruct (completion_result W _ (model request) h)
    as [[response tid] | e] eqn:Hres.
  - apply completion_result_trace_id in Hres. subst tid.
    destruct (validate_str W response) as [text | ].
    + left. exists text. reflexivity.
    + right. left. eexists. reflexivity.
  - destruct (exn_is_Exception e) eqn:HE.
    + right. left. eexists. reflexivity.
    + right. right. exists e. split; [ reflexivity | exact HE ].
Qed.

Lemma completion_result_escapes (W : World) messages model h e :
  provider_raises_Exceptions W ->
  tracing_raises_Exceptions W ->
  completion_result W messages model h = Raise e ->
  exn_is_Exception e = true.
Proof.
  intros Hprov Htr.
  rewrite completion_result_tracing_free by exact Htr.
  unfold provider_only_result, provider_answer.
  specialize (Hprov (h ++ [EvUrandom (urandom16 W h)]) model messages).
  destruct (acreate W _ model messages) as [response | e'].
  - destruct (first_choice_content response) as [content | e'] eqn:Hfirst;
      [ discriminate | ].
    intro E. injection E as <-.
    apply (first_choice_content_raises_Exception response e' Hfirst).
  - intro E. injection E as <-. simpl in Hprov.
    destruct (exn_is_Exception e'); [ reflexivity | discriminate ].
Qed.

(** [POST /chat] with a JSON body gives one of five results and nothing
    else: 200 with an assistant message; 422; 500 with a text detail, raised
    by the handler; the server's plain 500, when the message returned
    cannot be encoded; or, unhandled, an exception that is no [Exception].
    In a world whose provider and tracing raise [Exception]s only, the
    result is one of the first four. *)
Theorem post_chat_answers (W : World) (body : pyval) (h : history) :
  ((exists text,
      encodable W text = true /\
      fst (post_chat W body h) =
      Response 200 (chat_reply text (fresh_trace_id W h))) \/
   fst (post_chat W body h) =
     Response 422 (VDict [("detail", validation_detail W body)]) \/
   (exists detail,
      fst (post_chat W body h) = Response 500 (error_body detail)) \/
   fst (post_chat W body h) = PlainText 500 "Internal Server Error" \/
   (exists e, fst (post_chat W body h) = Unhandled e /\
              exn_is_Exception e = false)) /\
  (provider_raises_Exceptions W -> tracing_raises_Exceptions W ->
   (exists status answer,
      fst (post_chat W body h) = Response status answer /\
      (status = 200 \/ status = 422 \/ status = 500)%N) \/
   fst (post_chat W body h) = PlainText 500 "Internal Server Error").
Proof.
  destruct (validate_ChatRequest W body) as [request | ] eqn:Hval.
  - rewrite (post_chat_valid W body request h Hval). simpl.
    split.
    + destruct (chat_outcome_cases W request h)
        as [[text ->] | [[detail ->] | (e & -> & HE)]].
      * unfold respond, renders_ChatResponse. simpl.
        destruct (encodable W text) eqn:Henc.
        -- left. exists text. split; [ exact Henc | reflexivity ].
        -- right. right. right. left. reflexivity.
      * right. right. left. exists detail. reflexivity.
      * right. right. right. right.
        exists e. split; [ reflexivity | exact HE ].
    + intros Hprov Htr.
      destruct (chat_outcome_cases W request h)
        as [[text Hout] | [[detail Hout] | (e & Hout & HE)]].
      * rewrite Hout. unfold respond, renders_ChatResponse. simpl.
        destruct (encodable W text); [ left | right; reflexivity ].
        eexists _, _. split; [ reflexivity | ]. auto.
      * rewrite Hout. simpl. left.
        eexists _, _. split; [ reflexivity | ]. auto.
      * exfalso. unfold chat_outcome in Hout.
        destruct (completion_result W _ (model request) h)
          as [[response tid] | e'] eqn:Hres.
        -- destruct (validate_str W response); discriminate.
        -- apply (completion_result_escapes W _ _ h e' Hprov Htr) in Hres.
           rewrite Hres in Hout. discriminate.
  - rewrite (post_chat_invalid W body h Hval). simpl.
    split.
    + right. left. reflexivity.
    + intros _ _. left. eexists _, _. split; [ reflexivity | ]. auto.
Qed.

(** A provider that is down, and a body that is no object. *)
Lemma post_chat_answers_witness :
  ((exists status answer,
      fst (post_chat (Stub.world (Raise (Exc "APIConnectionError"
                                             "Error communicating with OpenAI"))
                                 Stub.sdk_down) Stub.hi_body [])
        = Response status answer /\
      (status = 200 \/ status = 422 \/ status = 500)%N) \/
   fst (post_chat (Stub.world (Raise (Exc "APIConnectionError"
                                          "Error communicating with OpenAI"))
                              Stub.sdk_down) Stub.hi_body [])
     = PlainText 500 "Internal Server Error") /\
  ((exists status answer,
      fst (post_chat Stub.hello (VList []) []) = Response status answer /\
      (status = 200 \/ status = 422 \/ status = 500)%N) \/
   fst (post_chat Stub.hello (VList []) [])
     = PlainText 500 "Internal Server Error").
Proof.
  split.
  - apply (post_chat_answers
             (Stub.world (Raise (Exc "APIConnectionError"
                                     "Error communicating with OpenAI"))
                         Stub.sdk_down) Stub.hi_body []).
    + intros h model messages. reflexivity.
    + apply stub_tracing_raises_Exceptions. intros h s. reflexivity.
  - apply (post_chat_answers Stub.hello (VList []) []).
    + intros h model messages. reflexivity.
    + apply stub_tracing_raises_Exceptions. intros h s. reflexivity.
Defined.

(** [POST /chat] answers 200 only when the request validated, the provider
    returned a response, its first choice held a content, and that content
    passed as the text of a [Message]: the answer then carries that text and
    the identifier drawn for the call. *)
Theorem ok_only_from_a_completion (W : World) (body answer : pyval)
    (h : history) :
  fst (post_chat W body h) = Response 200 answer ->
  exists request response content text,
    validate_ChatRequest W body = Some request /\
    provider_answer W (map message_dict (messages request)) (model request) h
      = Ret response /\
    first_choice_content response = Ret content /\
    validate_str W content = Some text /\
    answer = chat_reply text (fresh_trace_id W h).
Proof.
  destruct (validate_ChatRequest W body) as [request | ] eqn:Hval.
  - rewrite (post_chat_valid W body request h Hval). simpl.
    unfold chat_outcome, completion_result.
    destruct (provider_answer W _ (model request) h) as [response | e]
      eqn:Hans.
    + destruct (first_choice_content response) as [content | e] eqn:Hfirst.
      * simpl.
        destruct (trace_result W _ (model request) _ content _)
          as [[] | e].
        -- destruct (validate_str W content) as [text | ] eqn:Hstr.
           ++ unfold respond, renders_ChatResponse. simpl.
              destruct (encodable W text); [ | discriminate ].
              intro E. injection E as <-.
              exists request, response, content, text. repeat split; auto.
           ++ simpl. discriminate.
        -- destruct (exn_is_Exception e); simpl; discriminate.
      * destruct (exn_is_Exception e); simpl; discriminate.
    + destruct (exn_is_Exception e); simpl; discriminate.
  - rewrite (post_chat_invalid W body h Hval). simpl. discriminate.
Qed.

Lemma ok_only_from_a_completion_witness :
  exists request response content text,
    validate_ChatRequest Stub.hello Stub.hi_body = Some request /\
    provider_answer Stub.hello (map message_dict (messages request))
      (model request) [] = Ret response /\
    first_choice_content response = Ret content /\
    validate_str Stub.hello content = Some text /\
    chat_reply "Hello!" "00000000-0000-4000-8000-000000000000"
      = chat_reply text (fresh_trace_id Stub.hello []).
Proof.
  apply (ok_only_from_a_completion Stub.hello Stub.hi_body
           (chat_reply "Hello!" "00000000-0000-4000-8000-000000000000") []).
  reflexivity.
Defined.

(* ================================================================== *)
(** ** What is traced, and when *)

Lemma traced_completion (W : World) messages model h response content
    prompt_str sdk :
  provider_answer W messages model h = Ret response ->
  first_choice_content response = Ret content ->
  json_dumps W messages = Ret prompt_str ->
  sdk_trace W = Some sdk ->
  sdk (h ++ [EvUrandom (urandom16 W h); EvProviderCall model messages])
      (the_span (fresh_trace_id W h) model prompt_str content) = Ret tt ->
  completion_result W messages model h = Ret (content, fresh_trace_id W h) /\
  completion_events W messages model h =
    [EvUrandom (urandom16 W h);
     EvProviderCall model messages;
     EvTrace (the_span (fresh_trace_id W h) model prompt_str content);
     EvPrint ("Traced LLM call with ID: " +++ fresh_trace_id W h)].
Proof.
  intros Hans Hfirst Hdumps Hsdk Hcall.
  unfold completion_result, completion_events, trace_result, trace_events,
         call_prefix.
  rewrite Hans, Hfirst. simpl.
  rewrite Hdumps, Hsdk, Hcall. split; reflexivity.
Qed.

(** A successful call with a working SDK leaves exactly four events, in
    this order: the random read, the provider call, one span, one printed
    line.  The span is keyed by the identifier the call returns, is named
    after the model, and carries the serialised messages, the model and the
    content returned. *)
Theorem successful_call_is_traced (W : World) (messages : list strdict)
    (model : option string) (h : history) (response content : pyval)
    (prompt_str : string) (sdk : history -> span -> res unit) :
  let tid := fresh_trace_id W h in
  let s := {| span_name := "LLM Call - " +++ fmt model;
              span_inputs_prompt := prompt_str;
              span_inputs_model := model;
              span_outputs_response := content;
              span_id := tid |} in
  provider_answer W messages model h = Ret response ->
  first_choice_content response = Ret content ->
  json_dumps W messages = Ret prompt_str ->
  sdk_trace W = Some sdk ->
  sdk (h ++ [EvUrandom (urandom16 W h); EvProviderCall model messages]) s
    = Ret tt ->
  get_chat_completion W messages model h =
  (Ret (content, tid),
   h ++ [EvUrandom (urandom16 W h);
         EvProviderCall model messages;
         EvTrace s;
         EvPrint ("Traced LLM call with ID: " +++ tid)]).
Proof.
  intros tid s Hans Hfirst Hdumps Hsdk Hcall.
  rewrite get_chat_completion_run.
  destruct (traced_completion W messages model h response content
              prompt_str sdk Hans Hfirst Hdumps Hsdk Hcall) as [-> ->].
  reflexivity.
Qed.

Lemma successful_call_is_traced_witness :
  get_chat_completion Stub.hello [[("role", "user"); ("content", "Hi")]]
    (Some "gpt-3.5-turbo") [] =
  (Ret (VStr "Hello!", "00000000-0000-4000-8000-000000000000"),
   [EvUrandom 0;
    EvProviderCall (Some "gpt-3.5-turbo")
      [[("role", "user"); ("content", "Hi")]];
    EvTrace {| span_name := "LLM Call - gpt-3.5-turbo";
               span_inputs_prompt := hi_prompt;
               span_inputs_model := Some "gpt-3.5-turbo";
               span_outputs_response := VStr "Hello!";
               span_id := "00000000-0000-4000-8000-000000000000" |};
    EvPrint "Traced LLM call with ID: 00000000-0000-4000-8000-000000000000"]).
Proof.
  apply (successful_call_is_traced Stub.hello
           [[("role", "user"); ("content", "Hi")]] (Some "gpt-3.5-turbo") []
           (Stub.completion (VStr "Hello!")) (VStr "Hello!") _
           (fun _ _ => Ret tt)); reflexivity.
Defined.

Lemma trace_events_spans_length (W : World) trace_id model prompt response
    h :
  List.length (spans (trace_events W trace_id model prompt response h)) <= 1.
Proof.
  unfold trace_events.
  destruct (json_dumps W prompt) as [prompt_str | e].
  - destruct (sdk_trace W) as [sdk | ]; [ | simpl; lia ].
    destruct (sdk h _) as [[] | e]; [ simpl; lia | ].
    destruct (exn_is_Exception e); simpl; lia.
  - destruct (exn_is_Exception e); simpl; lia.
Qed.

Lemma completion_events_spans_length (W : World) messages model h :
  List.length (spans (completion_events W messages model h)) <= 1.
Proof.
  unfold completion_events, call_prefix. simpl.
  destruct (provider_answer W messages model h) as [response | e].
  - destruct (first_choice_content response) as [content | e].
    + rewrite spans_app, length_app.
      pose proof (trace_events_spans_length W (fresh_trace_id W h) model
                    messages content
                    (h ++ [EvUrandom (urandom16 W h);
                           EvProviderCall model messages])) as Hle.
      destruct (trace_result W _ model messages content _) as [[] | e];
        [ simpl; lia | ].
      destruct (exn_is_Exception e); simpl; lia.
    + destruct (exn_is_Exception e); simpl; lia.
  - destruct (exn_is_Exception e); simpl; lia.
Qed.

Lemma completion_events_spans_origin (W : World) messages model h s :
  In s (spans (completion_events W messages model h)) ->
  exists response content,
    provider_answer W messages model h = Ret response /\
    first_choice_content response = Ret content /\
    span_outputs_response s = content /\
    span_inputs_model s = model /\
    span_id s = fresh_trace_id W h.
Proof.
  unfold completion_events, call_prefix. simpl.
  destruct (provider_answer W messages model h) as [response | e] eqn:Hans.
  - destruct (first_choice_content response) as [content | e] eqn:Hfirst.
    + rewrite spans_app. intro Hin. apply in_app_or in Hin.
      destruct Hin as [Hin | Hin].
      * apply trace_events_spans in Hin.
        destruct Hin as (_ & Hm & Hr & Hid).
        exists response, content. repeat split; auto.
      * destruct (trace_result W _ model messages content _) as [[] | e];
          [ destruct Hin | ].
        destruct (exn_is_Exception e); destruct Hin.
    + destruct (exn_is_Exception e); intros [].
  - destruct (exn_is_Exception e); intros [].
Qed.

(** A call hands at most one span to the SDK, and only after the provider
    returned a response whose content could be read: the span then carries
    that content, the model of the call and the identifier drawn for it.
    A call whose provider raised, or whose response held no readable
    content, leaves no span. *)
Theorem only_completions_are_traced (W : World) (messages : list strdict)
    (model : option string) (h : history) :
  (exists recorded,
     spans (snd (get_chat_completion W messages model h))
       = spans h ++ recorded /\
     List.length recorded <= 1 /\
     forall s, In s recorded ->
       exists response content,
         provider_answer W messages model h = Ret response /\
         first_choice_content response = Ret content /\
         span_outputs_response s = content /\
         span_inputs_model s = model /\
         span_id s = fresh_trace_id W h) /\
  (forall e, provider_answer W messages model h = Raise e ->
     spans (snd (get_chat_completion W messages model h)) = spans h) /\
  (forall response e,
     provider_answer W messages model h = Ret response ->
     first_choice_content response = Raise e ->
     spans (snd (get_chat_completion W messages model h)) = spans h).
Proof.
  rewrite get_chat_completion_run. simpl. rewrite spans_app.
  split; [ | split ].
  - exists (spans (completion_events W messages model h)).
    split; [ reflexivity | split ].
    + apply completion_events_spans_length.
    + apply completion_events_spans_origin.
  - intros e Hans. unfold completion_events, call_prefix.
    rewrite Hans. destruct (exn_is_Exception e); simpl; apply app_nil_r.
  - intros response e Hans Hfirst. unfold completion_events, call_prefix.
    rewrite Hans, Hfirst.
    destruct (exn_is_Exception e); simpl; apply app_nil_r.
Qed.

(** When the content of the first choice is no text (a null content, as a
    provider sends with a function call), the call is traced as a success
    first, span and line included, and the request fails afterwards, in the
    gateway: [POST /chat] answers 500 with the text of the validation error,
    and the history holds no line about an error of the provider. *)
Theorem non_text_content_is_traced_then_500 (W : World) (body : pyval)
    (request : ChatRequest) (h : history) (response content : pyval)
    (prompt_str : string) (sdk : history -> span -> res unit) :
  let sent := map message_dict (messages request) in
  let tid := fresh_trace_id W h in
  let s := {| span_name := "LLM Call - " +++ fmt (model request);
              span_inputs_prompt := prompt_str;
              span_inputs_model := model request;
              span_outputs_response := content;
              span_id := tid |} in
  validate_ChatRequest W body = Some request ->
  provider_answer W sent (model request) h = Ret response ->
  first_choice_content response = Ret content ->
  validate_str W content = None ->
  json_dumps W sent = Ret prompt_str ->
  sdk_trace W = Some sdk ->
  sdk (h ++ [EvUrandom (urandom16 W h);
             EvProviderCall (model request) sent]) s = Ret tt ->
  post_chat W body h =
  (Response 500 (error_body (validation_error_str W content)),
   h ++ [EvUrandom (urandom16 W h);
         EvProviderCall (model request) sent;
         EvTrace s;
         EvPrint ("Traced LLM call with ID: " +++ tid)]).
Proof.
  intros sent tid s Hval Hans Hfirst Hstr Hdumps Hsdk Hcall.
  subst sent tid s.
  rewrite (post_chat_valid W body request h Hval).
  unfold chat_outcome.
  destruct (traced_completion W _ (model request) h response content
              prompt_str sdk Hans Hfirst Hdumps Hsdk Hcall) as [-> ->].
  rewrite Hstr. reflexivity.
Qed.

Lemma non_text_content_is_traced_then_500_witness :
  post_chat (Stub.world (Ret (Stub.completion VNone)) Stub.sdk_ok)
    Stub.hi_body [] =
  (Response 500 (error_body
     "1 validation error for Message: content of type NoneType"),
   [EvUrandom 0;
    EvProviderCall (Some "gpt-3.5-turbo")
      [[("role", "user"); ("content", "Hi")]];
    EvTrace {| span_name := "LLM Call - gpt-3.5-turbo";
               span_inputs_prompt := hi_prompt;
               span_inputs_model := Some "gpt-3.5-turbo";
               span_outputs_response := VNone;
               span_id := "00000000-0000-4000-8000-000000000000" |};
    EvPrint "Traced LLM call with ID: 00000000-0000-4000-8000-000000000000"]).
Proof.
  apply (non_text_content_is_traced_then_500
           (Stub.world (Ret (Stub.completion VNone)) Stub.sdk_ok)
           Stub.hi_body
           (mkChatRequest [mkMessage "user" "Hi"] (Some "gpt-3.5-turbo"))
           [] (Stub.completion VNone) VNone hi_prompt (fun _ _ => Ret tt));
    reflexivity.
Defined.

(** Of the provider's response nothing but the content of its first choice
    leaves [get_chat_completion]: with another provider whose response has
    the same first content, the call returns the same value and leaves the
    same events, spans and printed lines included. *)
Theorem only_first_content_leaves (W : World)
    (provider : history -> option string -> list strdict -> res pyval)
    (messages : list strdict) (model : option string) (h : history)
    (response response' content : pyval) :
  provider_answer W messages model h = Ret response ->
  provider_answer (with_provider W provider) messages model h
    = Ret response' ->
  first_choice_content response = Ret content ->
  first_choice_content response' = Ret content ->
  get_chat_completion (with_provider W provider) messages model h =
  get_chat_completion W messages model h.
Proof.
  intros Hans Hans' Hfirst Hfirst'.
  rewrite !get_chat_completion_run.
  unfold completion_result, completion_events.
  rewrite Hans, Hans', Hfirst, Hfirst'. reflexivity.
Qed.

Lemma only_first_content_leaves_witness :
  get_chat_completion
    (with_provider Stub.hello
       (fun _ _ _ =>
          Ret (VDict [("choices",
                       VList [VDict [("message",
                                      VDict [("content", VStr "Hello!")])];
                              VDict [("message",
                                      VDict [("content", VStr "Bye")])]]);
                      ("usage", VDict [("total_tokens", VInt 12)])])))
    [[("role", "user"); ("content", "Hi")]] (Some "gpt-3.5-turbo") [] =
  get_chat_completion Stub.hello
    [[("role", "user"); ("content", "Hi")]] (Some "gpt-3.5-turbo") [].
Proof.
  apply (only_first_content_leaves Stub.hello _
           [[("role", "user"); ("content", "Hi")]] (Some "gpt-3.5-turbo") []
           (Stub.completion (VStr "Hello!"))
           (VDict [("choices",
                    VList [VDict [("message",
                                   VDict [("content", VStr "Hello!")])];
                           VDict [("message",
                                   VDict [("content", VStr "Bye")])]]);
                   ("usage", VDict [("total_tokens", VInt 12)])])
           (VStr "Hello!"));
    reflexivity.
Defined.

(* ================================================================== *)
(** ** More on validation *)

(** A [model] entry that is text is taken as it is, whatever the text: the
    request validates with it, the provider is called with it, and every
    span of the call carries it. *)
Theorem text_model_is_forwarded (W : World) (fields : list (string * pyval))
    (items : list pyval) (msgs : list Message) (name : string)
    (h : history) :
  lookup "model" fields = Some (VStr name) ->
  lookup "messages" fields = Some (VList items) ->
  validate_Messages W items = Some msgs ->
  validate_ChatRequest W (VDict fields) =
    Some (mkChatRequest msgs (Some name)) /\
  provider_calls (snd (post_chat W (VDict fields) h)) =
    provider_calls h ++ [(Some name, map message_dict msgs)] /\
  exists recorded,
    spans (snd (post_chat W (VDict fields) h)) = spans h ++ recorded /\
    forall s, In s recorded -> span_inputs_model s = Some name.
Proof.
  intros Hmodel Hmessages Hitems.
  assert (Hval : validate_ChatRequest W (VDict fields) =
                 Some (mkChatRequest msgs (Some name))).
  { unfold validate_ChatRequest, as_object.
    rewrite Hmessages, Hitems, Hmodel. reflexivity. }
  split; [ exact Hval | split ].
  - apply (post_chat_provider_call W (VDict fields) _ h Hval).
  - rewrite (post_chat_valid W (VDict fields) _ h Hval). simpl.
    rewrite spans_app. eexists. split; [ reflexivity | ].
    intros s Hin. apply completion_events_spans in Hin. apply Hin.
Qed.

Lemma text_model_is_forwarded_witness :
  validate_ChatRequest Stub.hello
    (chat_body [mkMessage "user" "Hi"] (Some (VStr "gpt-4"))) =
    Some (mkChatRequest [mkMessage "user" "Hi"] (Some "gpt-4")) /\
  provider_calls
    (snd (post_chat Stub.hello
            (chat_body [mkMessage "user" "Hi"] (Some (VStr "gpt-4"))) []))
    = [(Some "gpt-4", [[("role", "user"); ("content", "Hi")]])] /\
  exists recorded,
    spans (snd (post_chat Stub.hello
                  (chat_body [mkMessage "user" "Hi"] (Some (VStr "gpt-4")))
                  [])) = recorded /\
    forall s, In s recorded -> span_inputs_model s = Some "gpt-4".
Proof.
  apply (text_model_is_forwarded Stub.hello
           [("messages",
             VList [VDict [("role", VStr "user"); ("content", VStr "Hi")]]);
            ("model", VStr "gpt-4")]
           [VDict [("role", VStr "user"); ("content", VStr "Hi")]]
           [mkMessage "user" "Hi"] "gpt-4" []); reflexivity.
Defined.

Lemma validate_Messages_entries (W : World) (items : list pyval)
    (msgs : list Message) :
  Forall2 (fun v m =>
             exists entries, v = VDict entries /\
               lookup "role" entries = Some (VStr (role m)) /\
               lookup "content" entries = Some (VStr (content m)))
          items msgs ->
  validate_Messages W items = Some msgs.
Proof.
  induction 1 as [ | v m items msgs (entries & -> & Hr & Hc) _ IH].
  - reflexivity.
  - cbn [validate_Messages]. unfold validate_Message, as_object.
    rewrite Hr, Hc, IH. simpl. destruct m; reflexivity.
Qed.

(** Of a message object only [role] and [content] go on: whatever other
    entries the messages of a body carry, the provider is called with one
    dictionary per message holding exactly these two, in the order of the
    body. *)
Theorem other_message_entries_are_dropped (W : World)
    (fields : list (string * pyval)) (items : list pyval)
    (msgs : list Message) (chosen : option string) (h : history) :
  lookup "messages" fields = Some (VList items) ->
  Forall2 (fun v m =>
             exists entries, v = VDict entries /\
               lookup "role" entries = Some (VStr (role m)) /\
               lookup "content" entries = Some (VStr (content m)))
          items msgs ->
  validate_model W (lookup "model" fields) = Some chosen ->
  provider_calls (snd (post_chat W (VDict fields) h)) =
  provider_calls h ++
    [(chosen,
      map (fun m => [("role", role m); ("content", content m)]) msgs)].
Proof.
  intros Hmessages Hitems Hmodel.
  apply (post_chat_provider_call W (VDict fields)
           (mkChatRequest msgs chosen) h).
  unfold validate_ChatRequest, as_object.
  rewrite Hmessages, (validate_Messages_entries W items msgs Hitems), Hmodel.
  reflexivity.
Qed.

(** A message that also names its author. *)
Lemma other_message_entries_are_dropped_witness :
  provider_calls
    (snd (post_chat Stub.hello
            (VDict [("messages",
                     VList [VDict [("name", VStr "ada");
                                   ("role", VStr "user");
                                   ("content", VStr "Hi")]])]) [])) =
  [(Some "gpt-3.5-turbo", [[("role", "user"); ("content", "Hi")]])].
Proof.
  apply (other_message_entries_are_dropped Stub.hello
           [("messages",
             VList [VDict [("name", VStr "ada"); ("role", VStr "user");
                           ("content", VStr "Hi")]])]
           [VDict [("name", VStr "ada"); ("role", VStr "user");
                   ("content", VStr "Hi")]]
           [mkMessage "user" "Hi"] (Some "gpt-3.5-turbo") []).
  - reflexivity.
  - constructor; [ | constructor ].
    eexists. split; [ reflexivity | split; reflexivity ].
  - reflexivity.
Defined.

(* ================================================================== *)
(** ** The bits and the characters of a trace identifier *)

Module uuid_bits.
Import uuid.

(** a fact about all numbers below [n], checked by running through them *)
Lemma check_below (f : N -> bool) (n : nat) :
  forallb f (map N.of_nat (seq 0 n)) = true ->
  forall i, (i < N.of_nat n)%N -> f i = true.
Proof.
  intros Hall i Hi. rewrite forallb_forall in Hall. apply Hall.
  rewrite <- (N2Nat.id i). apply in_map. apply in_seq. lia.
Qed.

(** the bits of a 128-bit constant, given as a test on the index *)
Lemma mask_bits (mask : N) (bits : N -> bool) :
  (mask < 2 ^ 128)%N ->
  forallb (fun i => Bool.eqb (N.testbit mask i) (bits i))
          (map N.of_nat (seq 0 128)) = true ->
  (forall i, (128 <= i)%N -> bits i = false) ->
  forall i, N.testbit mask i = bits i.
Proof.
  intros Hlt Hlow Hhigh i.
  destruct (N.lt_ge_cases i 128) as [Hi | Hi].
  - apply Bool.eqb_prop.
    apply (check_below (fun i => Bool.eqb (N.testbit mask i) (bits i)) 128
             Hlow i Hi).
  - rewrite (Hhigh i Hi).
    destruct (N.eq_dec mask 0) as [-> | Hnz]; [ apply N.bits_0 | ].
    apply N.bits_above_log2.
    apply N.log2_lt_pow2; [ lia | ].
    eapply N.lt_le_trans; [ exact Hlt | ].
    apply N.pow_le_mono_r; [ discriminate | exact Hi ].
Qed.

Ltac index_cases :=
  repeat match goal with
  | |- context [(?a =? ?b)%N] => destruct (N.eqb_spec a b)
  | |- context [(?a <=? ?b)%N] => destruct (N.leb_spec a b)
  | |- context [(?a <? ?b)%N] => destruct (N.ltb_spec a b)
  end.

Lemma variant_clear_bits (i : N) :
  N.testbit (N.shiftl 0xc000 48) i = ((i =? 62) || (i =? 63))%N.
Proof.
  apply (mask_bits (N.shiftl 0xc000 48) (fun j => ((j =? 62) || (j =? 63))%N));
    [ vm_compute; reflexivity | vm_compute; reflexivity | ].
  intros j Hj. index_cases; try reflexivity; lia.
Qed.

Lemma variant_set_bits (i : N) :
  N.testbit (N.shiftl 0x8000 48) i = (i =? 63)%N.
Proof.
  apply (mask_bits (N.shiftl 0x8000 48) (fun j => (j =? 63)%N));
    [ vm_compute; reflexivity | vm_compute; reflexivity | ].
  intros j Hj. index_cases; try reflexivity; lia.
Qed.

Lemma version_clear_bits (i : N) :
  N.testbit (N.shiftl 0xf000 64) i = ((76 <=? i) && (i <=? 79))%N.
Proof.
  apply (mask_bits (N.shiftl 0xf000 64) (fun j => ((76 <=? j) && (j <=? 79))%N));
    [ vm_compute; reflexivity | vm_compute; reflexivity | ].
  intros j Hj. index_cases; try reflexivity; lia.
Qed.

Lemma version_set_bits (i : N) :
  N.testbit (N.shiftl 4 76) i = (i =? 78)%N.
Proof.
  apply (mask_bits (N.shiftl 4 76) (fun j => (j =? 78)%N));
    [ vm_compute; reflexivity | vm_compute; reflexivity | ].
  intros j Hj. index_cases; try reflexivity; lia.
Qed.

(** bit by bit, what [UUID(bytes=b, version=4)] makes of the sixteen bytes *)
Lemma UUID_v4_testbit (bytes16 i : N) :
  N.testbit (UUID_v4 bytes16) i =
  match version4_bit i with
  | Some fixed => fixed
  | None => (i <? 128)%N && N.testbit bytes16 i
  end.
Proof.
  unfold UUID_v4.
  rewrite N.lor_spec, N.ldiff_spec, N.lor_spec, N.ldiff_spec.
  rewrite variant_clear_bits, variant_set_bits, version_clear_bits,
          version_set_bits.
  assert (Hmod : N.testbit (bytes16 mod 2 ^ 128) i =
                 (i <? 128)%N && N.testbit bytes16 i).
  { destruct (N.ltb_spec i 128) as [Hi | Hi].
    - apply N.mod_pow2_bits_low. exact Hi.
    - apply N.mod_pow2_bits_high. exact Hi. }
  rewrite Hmod. unfold version4_bit.
  index_cases; simpl; try lia;
    destruct (N.testbit bytes16 i); reflexivity.
Qed.

End uuid_bits.

Lemma drawn_uuid_eq_iff (W : World) (h1 h2 : history) :
  drawn_uuid W h1 = drawn_uuid W h2 <->
  forall i, (i < 128)%N -> version4_bit i = None ->
    N.testbit (urandom16 W h1) i = N.testbit (urandom16 W h2) i.
Proof.
  unfold drawn_uuid. split.
  - intros E i Hi Hfree.
    apply (f_equal (fun u => N.testbit u i)) in E.
    rewrite !uuid_bits.UUID_v4_testbit, Hfree in E.
    apply N.ltb_lt in Hi. rewrite Hi in E. exact E.
  - intro Hbits. apply N.bits_inj. intro i.
    rewrite !uuid_bits.UUID_v4_testbit.
    destruct (version4_bit i) eqn:Hfree; [ reflexivity | ].
    destruct (N.ltb_spec i 128) as [Hi | Hi]; [ | reflexivity ].
    simpl. apply Hbits; assumption.
Qed.

(** Two successful calls return the same trace identifier exactly when the
    sixteen random bytes read for them agree on the 122 bits that version 4
    leaves alone; the six bits it overwrites play no part. *)
Theorem same_trace_id_iff (W : World)
    (messages1 messages2 : list strdict) (model1 model2 : option string)
    (h1 h2 : history) (content1 content2 : pyval) (tid1 tid2 : string) :
  fst (get_chat_completion W messages1 model1 h1) = Ret (content1, tid1) ->
  fst (get_chat_completion W messages2 model2 h2) = Ret (content2, tid2) ->
  (tid1 = tid2 <->
   forall i, (i < 128)%N -> version4_bit i = None ->
     N.testbit (urandom16 W h1) i = N.testbit (urandom16 W h2) i).
Proof.
  intros H1 H2.
  rewrite get_chat_completion_run in H1, H2. simpl in H1, H2.
  apply completion_result_trace_id in H1, H2. subst tid1 tid2.
  rewrite <- drawn_uuid_eq_iff. split.
  - apply fresh_trace_id_inj.
  - unfold fresh_trace_id. intros ->. reflexivity.
Qed.

(** Two reads that differ in the version bits only: the identifiers
    coincide. *)
Lemma same_trace_id_iff_witness :
  let W' := {| urandom16 := fun h => match h with
                                     | [] => 0%N
                                     | _ => N.shiftl 0xf 76
                                     end;
               acreate := acreate Stub.hello;
               json_dumps := json_dumps Stub.hello;
               sdk_trace := sdk_trace Stub.hello;
               coerce_str := coerce_str Stub.hello;
               coerce_dict := coerce_dict Stub.hello;
               encodable := encodable Stub.hello;
               validation_error_str := validation_error_str Stub.hello;
               validation_detail := validation_detail Stub.hello |} in
  "00000000-0000-4000-8000-000000000000" =
  "00000000-0000-4000-8000-000000000000" <->
  forall i, (i < 128)%N -> version4_bit i = None ->
    N.testbit (urandom16 W' []) i = N.testbit (urandom16 W' [EvPrint "x"]) i.
Proof.
  intro W'.
  apply (same_trace_id_iff W' [] [] None None [] [EvPrint "x"]
           (VStr "Hello!") (VStr "Hello!")); reflexivity.
Defined.

Module uuid_format.
Import uuid.

Lemma hex_rev_nth (k : nat) (n : N) (i : nat) :
  i < k ->
  nth_error (hex_rev k n) i =
  Some (hex_digit ((n / 16 ^ N.of_nat i) mod 16)%N).
Proof.
  revert n i. induction k as [ | k IH]; intros n i Hi; [ lia | ].
  destruct i as [ | i].
  - simpl. rewrite N.div_1_r. reflexivity.
  - cbn [hex_rev nth_error]. rewrite IH by lia.
    rewrite Nat2N.inj_succ, N.pow_succ_r', N.Div0.div_div. reflexivity.
Qed.

Lemma hex032_nth (n : N) (i : nat) :
  i < 32 ->
  nth_error (hex032 n) i =
  Some (hex_digit ((n / 16 ^ N.of_nat (31 - i)) mod 16)%N).
Proof.
  intro Hi. unfold hex032.
  rewrite nth_error_rev, uuid_facts.hex_rev_length.
  destruct (Nat.ltb_spec i 32) as [_ | Hge]; [ | lia ].
  replace (32 - S i) with (31 - i) by lia.
  apply hex_rev_nth. lia.
Qed.

Lemma hex_digit_is_hex (d : N) : (d < 16)%N -> is_hex (hex_digit d) = true.
Proof.
  intro Hd. unfold is_hex. rewrite uuid_facts.hex_val_digit by exact Hd.
  apply N.ltb_lt. exact Hd.
Qed.

Lemma hex032_is_hex (n : N) :
  Forall (fun c => is_hex c = true) (hex032 n).
Proof.
  unfold hex032. apply Forall_rev.
  generalize 32 as k. intro k. revert n.
  induction k as [ | k IH]; intro n; simpl; constructor.
  - apply hex_digit_is_hex. apply N.mod_lt. discriminate.
  - apply IH.
Qed.

(** the version digit *)
Lemma version_digit (bytes16 : N) :
  ((UUID_v4 bytes16 / 16 ^ 19) mod 16 = 4)%N.
Proof.
  change (16 ^ 19)%N with (2 ^ 76)%N. change 16%N with (2 ^ 4)%N.
  apply N.bits_inj. intro j.
  destruct (N.lt_ge_cases j 4) as [Hj | Hj].
  - rewrite N.mod_pow2_bits_low by exact Hj.
    rewrite N.div_pow2_bits, uuid_bits.UUID_v4_testbit.
    assert (Hcases : (j = 0 \/ j = 1 \/ j = 2 \/ j = 3)%N) by lia.
    destruct Hcases as [-> | [-> | [-> | ->]]]; reflexivity.
  - rewrite N.mod_pow2_bits_high by exact Hj.
    symmetry. apply N.bits_above_log2. simpl. lia.
Qed.

(** the variant digit *)
Lemma variant_digit (bytes16 : N) :
  let d := ((UUID_v4 bytes16 / 16 ^ 15) mod 16)%N in
  (d = 8 \/ d = 9 \/ d = 10 \/ d = 11)%N.
Proof.
  intro d.
  assert (Hlt : (d < 16)%N) by (apply N.mod_lt; discriminate).
  assert (H3 : N.testbit d 3 = true).
  { unfold d. change (16 ^ 15)%N with (2 ^ 60)%N.
    change 16%N with (2 ^ 4)%N.
    rewrite N.mod_pow2_bits_low by lia.
    rewrite N.div_pow2_bits, uuid_bits.UUID_v4_testbit. reflexivity. }
  assert (H2 : N.testbit d 2 = false).
  { unfold d. change (16 ^ 15)%N with (2 ^ 60)%N.
    change 16%N with (2 ^ 4)%N.
    rewrite N.mod_pow2_bits_low by lia.
    rewrite N.div_pow2_bits, uuid_bits.UUID_v4_testbit. reflexivity. }
  clearbody d.
  assert (Hcases : (d = 0 \/ d = 1 \/ d = 2 \/ d = 3 \/ d = 4 \/ d = 5 \/
                    d = 6 \/ d = 7 \/ d = 8 \/ d = 9 \/ d = 10 \/ d = 11 \/
                    d = 12 \/ d = 13 \/ d = 14 \/ d = 15)%N) by lia.
  repeat (destruct Hcases as [-> | Hcases];
          [ try discriminate H3; try discriminate H2; auto | ]).
  subst d. discriminate H2.
Qed.

(** the canonical form of a version-4 UUID *)
Lemma UUID_v4_str_format (bytes16 : N) :
  let tid := UUID_str (UUID_v4 bytes16) in
  String.get 8 tid = Some "-"%char /\
  String.get 13 tid = Some "-"%char /\
  String.get 18 tid = Some "-"%char /\
  String.get 23 tid = Some "-"%char /\
  String.get 14 tid = Some "4"%char /\
  (exists v, String.get 19 tid = Some v /\
             In v ["8"; "9"; "a"; "b"]%char) /\
  forall k c, String.get k tid = Some c ->
    k <> 8 -> k <> 13 -> k <> 18 -> k <> 23 -> is_hex c = true.
Proof.
  intro tid. subst tid. unfold UUID_str.
  pose proof (uuid_facts.hex032_length (UUID_v4 bytes16)) as Hlen.
  pose proof (hex032_is_hex (UUID_v4 bytes16)) as Hhex.
  pose proof (hex032_nth (UUID_v4 bytes16) 12) as Hversion.
  pose proof (hex032_nth (UUID_v4 bytes16) 16) as Hvariant.
  change (N.of_nat (31 - 12)) with 19%N in Hversion.
  change (N.of_nat (31 - 16)) with 15%N in Hvariant.
  rewrite version_digit in Hversion.
  pose proof (variant_digit bytes16) as Hd. cbv zeta in Hd.
  remember ((UUID_v4 bytes16 / 16 ^ 15) mod 16)%N as d eqn:Ed. clear Ed.
  remember (hex032 (UUID_v4 bytes16)) as hex eqn:Ehex. clear Ehex.
  specialize (Hversion ltac:(lia)). specialize (Hvariant ltac:(lia)).
  do 33 (destruct hex as [ | ? hex]; try discriminate Hlen).
  cbn in Hversion, Hvariant.
  injection Hversion as ->. injection Hvariant as ->.
  cbn [firstn skipn app string_of_list_ascii].
  repeat split; try reflexivity.
  - eexists. split; [ reflexivity | ].
    destruct Hd as [-> | [-> | [-> | ->]]]; simpl; auto.
  - intros k c Hget H8 H13 H18 H23.
    repeat match goal with
    | H : Forall _ (_ :: _) |- _ => inversion H; clear H; subst
    end.
    do 36 (destruct k as [ | k];
           [ cbn in Hget; injection Hget as <-;
             solve [ assumption | reflexivity | contradiction
                   | destruct Hd as [-> | [-> | [-> | ->]]]; reflexivity ]
           | ]).
    cbn in Hget. discriminate Hget.
Qed.

End uuid_format.

(** The trace identifier of a successful call is a version-4 UUID in its
    canonical form: dashes at positions 8, 13, 18 and 23, the digit 4 at
    position 14, one of 8, 9, a, b at position 19, and lower-case
    hexadecimal digits everywhere else. *)
Theorem trace_id_is_canonical_v4 (W : World) (messages : list strdict)
    (model : option string) (h : history) (content : pyval) (tid : string) :
  fst (get_chat_completion W messages model h) = Ret (content, tid) ->
  String.get 8 tid = Some "-"%char /\
  String.get 13 tid = Some "-"%char /\
  String.get 18 tid = Some "-"%char /\
  String.get 23 tid = Some "-"%char /\
  String.get 14 tid = Some "4"%char /\
  (exists v, String.get 19 tid = Some v /\
             In v ["8"; "9"; "a"; "b"]%char) /\
  forall k c, String.get k tid = Some c ->
    k <> 8 -> k <> 13 -> k <> 18 -> k <> 23 -> is_hex c = true.
Proof.
  intro Hres.
  rewrite get_chat_completion_run in Hres. simpl in Hres.
  apply completion_result_trace_id in Hres. subst tid.
  apply uuid_format.UUID_v4_str_format.
Qed.

Lemma trace_id_is_canonical_v4_witness :
  let tid := "00000000-0000-4000-8000-000000000000" in
  String.get 8 tid = Some "-"%char /\
  String.get 13 tid = Some "-"%char /\
  String.get 18 tid = Some "-"%char /\
  String.get 23 tid = Some "-"%char /\
  String.get 14 tid = Some "4"%char /\
  (exists v, String.get 19 tid = Some v /\
             In v ["8"; "9"; "a"; "b"]%char) /\
  forall k c, String.get k tid = Some c ->
    k <> 8 -> k <> 13 -> k <> 18 -> k <> 23 -> is_hex c = true.
Proof.
  intro tid.
  apply (trace_id_is_canonical_v4 Stub.hello
           [[("role", "user"); ("content", "Hi")]] (Some "gpt-3.5-turbo") []
           (VStr "Hello!") tid).
  reflexivity.
Defined.

(* ================================================================== *)
(** ** What [except Exception] lets through *)

(** An exception of the provider call that is no [Exception] (a
    cancellation of the task, an interrupt) is neither logged nor turned
    into a 500: [get_chat_completion] raises it with nothing printed, no
    span recorded, and [POST /chat] leaves it unhandled. *)
Theorem non_Exception_passes_unlogged (W : World) (body : pyval)
    (request : ChatRequest) (h : history) (e : exn) :
  let sent := map message_dict (messages request) in
  validate_ChatRequest W body = Some request ->
  provider_answer W sent (model request) h = Raise e ->
  exn_is_Exception e = false ->
  get_chat_completion W sent (model request) h =
    (Raise e, h ++ [EvUrandom (urandom16 W h);
                    EvProviderCall (model request) sent]) /\
  post_chat W body h =
    (Unhandled e, h ++ [EvUrandom (urandom16 W h);
                        EvProviderCall (model request) sent]).
Proof.
  intros sent Hval Hans HE. subst sent.
  assert (Hres : completion_result W (map message_dict (messages request))
                   (model request) h = Raise e).
  { unfold completion_result. rewrite Hans. reflexivity. }
  assert (Hev : completion_events W (map message_dict (messages request))
                  (model request) h =
                [EvUrandom (urandom16 W h);
                 EvProviderCall (model request)
                   (map message_dict (messages request))]).
  { unfold completion_events, call_prefix. rewrite Hans, HE. reflexivity. }
  split.
  - rewrite get_chat_completion_run, Hres, Hev. reflexivity.
  - rewrite (post_chat_valid W body request h Hval).
    unfold chat_outcome. rewrite Hres, HE, Hev. reflexivity.
Qed.

Lemma non_Exception_passes_unlogged_witness :
  let cancelled := mkExn "CancelledError" false EmptyString in
  let W := Stub.world (Raise cancelled) Stub.sdk_ok in
  get_chat_completion W [[("role", "user"); ("content", "Hi")]]
    (Some "gpt-3.5-turbo") [] =
    (Raise cancelled,
     [EvUrandom 0;
      EvProviderCall (Some "gpt-3.5-turbo")
        [[("role", "user"); ("content", "Hi")]]]) /\
  post_chat W Stub.hi_body [] =
    (Unhandled cancelled,
     [EvUrandom 0;
      EvProviderCall (Some "gpt-3.5-turbo")
        [[("role", "user"); ("content", "Hi")]]]).
Proof.
  intros cancelled W.
  apply (non_Exception_passes_unlogged W Stub.hi_body
           (mkChatRequest [mkMessage "user" "Hi"] (Some "gpt-3.5-turbo"))
           [] cancelled); reflexivity.
Defined.
